(** * A verification model of the hotel_booking scaffolding tools

    Two source files are embedded:
    - [src/tools/generate-module.js], the module generator: the script
      itself (argument guard, directory skeleton, the [files] object, the
      write loop) and the TypeScript classes its templates describe (the
      repository adapter over the ORM and the service over the adapter);
    - [src/common/dto/pagination.dto.ts], the shared pagination request.

    Strings are sequences of code units; for the ASCII text of the templates
    these are bytes.  Promises are results: a rejected promise is [Err]. *)

From Stdlib Require Import Ascii ZArith QArith Qround.
From stdpp Require Import gmap strings list.

Local Open Scope Z_scope.

(** ** Template literals *)

Module Template.

(** A template literal is a sequence of literal chunks and of the three
    interpolations the script uses: [${base}], [${name}] and [${Name}]. *)
Inductive piece : Type :=
  | Lit (s : string)
  | V_base
  | V_name
  | V_Name.

Definition template : Type := list piece.

Record variants : Type := Variants {
  var_base : string;
  var_name : string;
  var_Name : string
}.

Definition subst (v : variants) (p : piece) : string :=
  match p with
  | Lit s => s
  | V_base => var_base v
  | V_name => var_name v
  | V_Name => var_Name v
  end.

Fixpoint render (v : variants) (t : template) : string :=
  match t with
  | [] => ""
  | p :: t' => subst v p +:+ render v t'
  end.

Definition literals (t : template) : list string :=
  omap (fun p => match p with Lit s => Some s | _ => None end) t.

(** The twelve entries of the [files] object, in source order: the key
    template and the value template of each. *)

(** [// DOMAIN] *)
Definition domain_path : template :=
  [V_base; Lit "/domain/"; V_name; Lit ".domain.ts"].

Definition domain_text : template :=
  [Lit "export class ";
   V_Name;
   Lit " {
  id?: string;

  createdAt?: Date;

  updatedAt?: Date;

  deletedAt?: Date;

  constructor(partial: Partial<";
   V_Name;
   Lit ">) {
    Object.assign(this, partial);
  }
}
"].

(** [// DTO - CREATE] *)
Definition create_dto_path : template :=
  [V_base; Lit "/dto/create-"; V_name; Lit ".dto.ts"].

Definition create_dto_text : template :=
  [Lit "import { IsNotEmpty, IsString } from 'class-validator';

export class Create";
   V_Name;
   Lit "Dto {
  @IsNotEmpty()
  @IsString()
  name: string;
}
"].

(** [// DTO - UPDATE] *)
Definition update_dto_path : template :=
  [V_base; Lit "/dto/update-"; V_name; Lit ".dto.ts"].

Definition update_dto_text : template :=
  [Lit "import { IsOptional, IsString } from 'class-validator';

export class Update";
   V_Name;
   Lit "Dto {
  @IsOptional()
  @IsString()
  name?: string;
}
"].

(** [// DTO - FILTER] *)
Definition filter_dto_path : template :=
  [V_base; Lit "/dto/filter-"; V_name; Lit ".dto.ts"].

Definition filter_dto_text : template :=
  [Lit "import { IsOptional, IsString } from 'class-validator';
 import { PaginationDto } from 'src/common/dto/pagination.dto';

export class Filter";
   V_Name;
   Lit "Dto extends PaginationDto {
  @IsOptional()
  @IsString()
  search?: string;
}
"].

(** [// ENTITY] *)
Definition entity_path : template :=
  [V_base; Lit "/infrastructure/entities/"; V_name; Lit ".entity.ts"].

Definition entity_text : template :=
  [Lit "import {
  Entity,
  PrimaryGeneratedColumn,
  Column,
  CreateDateColumn,
  UpdateDateColumn,
  DeleteDateColumn,
  BaseEntity,
} from 'typeorm';

@Entity('";
   V_name;
   Lit "')
export class ";
   V_Name;
   Lit "Entity extends BaseEntity {
  @PrimaryGeneratedColumn('uuid')
  id: string;

  @CreateDateColumn()
  createdAt: Date;

  @UpdateDateColumn()
  updatedAt: Date;

  @DeleteDateColumn({ nullable: true })
  deletedAt?: Date;

  constructor(data?: Partial<";
   V_Name;
   Lit "Entity>) {
    super();
    if (data) {
      Object.assign(this, data);
    }
  }
}
"].

(** [// REPOSITORY INTERFACE] *)
Definition repository_path : template :=
  [V_base; Lit "/infrastructure/repositories/"; V_name; Lit ".repository.ts"].

Definition repository_text : template :=
  [Lit "import { ";
   V_Name;
   Lit "Entity } from '../entities/";
   V_name;
   Lit ".entity';
 import { PaginatedResult } from 'src/common/dto/paginated-result.dto';

export abstract class ";
   V_Name;
   Lit "Repository {
  abstract create(data: Partial<";
   V_Name;
   Lit "Entity>): Promise<";
   V_Name;
   Lit "Entity>;
  abstract findAll(pagination: any): Promise<PaginatedResult<";
   V_Name;
   Lit "Entity>>;
  abstract findById(id: string): Promise<";
   V_Name;
   Lit "Entity | null>;
  abstract findWithFilter(filter: any): Promise<PaginatedResult<";
   V_Name;
   Lit "Entity>>;
  abstract update(id: string, data: Partial<";
   V_Name;
   Lit "Entity>): Promise<";
   V_Name;
   Lit "Entity>;
  abstract delete(id: string): Promise<void>;
}
"].

(** [// REPOSITORY IMPLEMENTATION] *)
Definition repository_impl_path : template :=
  [V_base; Lit "/infrastructure/repositories/"; V_name; Lit ".repository.impl.ts"].

Definition repository_impl_text : template :=
  [Lit "import { Injectable } from '@nestjs/common';
import { InjectRepository } from '@nestjs/typeorm';
import { Repository, ILike } from 'typeorm';
import { ";
   V_Name;
   Lit "Entity } from '../entities/";
   V_name;
   Lit ".entity';
import { ";
   V_Name;
   Lit "Repository } from './";
   V_name;
   Lit ".repository';
import { PaginatedResult } from 'src/common/dto/paginated-result.dto';

@Injectable()
export class ";
   V_Name;
   Lit "RepositoryImpl extends ";
   V_Name;
   Lit "Repository {
  constructor(
    @InjectRepository(";
   V_Name;
   Lit "Entity)
    private readonly repo: Repository<";
   V_Name;
   Lit "Entity>,
  ) {
    super();
  }

  async create(data: Partial<";
   V_Name;
   Lit "Entity>) {
    const entity = this.repo.create(data);
    return this.repo.save(entity);
  }

  async findAll(pagination: any): Promise<PaginatedResult<";
   V_Name;
   Lit "Entity>> {
    const limit = pagination.limit || 10;
    const offset = pagination.offset || 0;
    const sort = pagination.sort || 'createdAt';
    const order = pagination.order || 'DESC';

    const [data, total] = await this.repo.findAndCount({
      take: limit,
      skip: offset,
      order: { [sort]: order },
    });

    return { data, total, limit, offset };
  }

  findById(id: string) {
    return this.repo.findOne({ where: { id } });
  }

  async findWithFilter(filter: any): Promise<PaginatedResult<";
   V_Name;
   Lit "Entity>> {
    const limit = filter.limit || 10;
    const offset = filter.offset || 0;
    const sort = filter.sort || 'createdAt';
    const order = filter.order || 'DESC';
    const search = filter.search;

    const where: any = search ? { guestName: ILike(`%${search}%`) } : {};

    const [data, total] = await this.repo.findAndCount({
      where,
      take: limit,
      skip: offset,
      order: { [sort]: order },
    });

    return { data, total, limit, offset };
  }

  async update(id: string, data: Partial<";
   V_Name;
   Lit "Entity>) {
    await this.repo.update(id, data);
    const entity = await this.findById(id);
    if (!entity) {
      throw new Error(`Entity ${id} not found`);
    }
    return entity;
  }

  async delete(id: string) {
    await this.repo.softDelete(id);
  }
}
"].

(** [// MAPPER] *)
Definition mapper_path : template :=
  [V_base; Lit "/mappers/"; V_name; Lit ".mapper.ts"].

Definition mapper_text : template :=
  [Lit "import { ";
   V_Name;
   Lit "Entity } from '../infrastructure/entities/";
   V_name;
   Lit ".entity';
import { ";
   V_Name;
   Lit " } from '../domain/";
   V_name;
   Lit ".domain';

export class ";
   V_Name;
   Lit "Mapper {
  static toDomain(entity: ";
   V_Name;
   Lit "Entity): ";
   V_Name;
   Lit " {
    return new ";
   V_Name;
   Lit "({
      id: entity.id,
      createdAt: entity.createdAt,
      updatedAt: entity.updatedAt,
      deletedAt: entity.deletedAt,
    });
  }

  static toEntity(domain: ";
   V_Name;
   Lit "): Partial<";
   V_Name;
   Lit "Entity> {
    const entity: Partial<";
   V_Name;
   Lit "Entity> = {};
    if (domain.id) {
      entity.id = domain.id;
    }
    return entity;
  }
}
"].

(** [// PROVIDERS] *)
Definition providers_path : template :=
  [V_base; Lit "/infrastructure/providers/"; V_name; Lit ".providers.ts"].

Definition providers_text : template :=
  [Lit "import { ";
   V_Name;
   Lit "Repository } from '../repositories/";
   V_name;
   Lit ".repository';
import { ";
   V_Name;
   Lit "RepositoryImpl } from '../repositories/";
   V_name;
   Lit ".repository.impl';

export const ";
   V_Name;
   Lit "Providers = [
  {
    provide: ";
   V_Name;
   Lit "Repository,
    useClass: ";
   V_Name;
   Lit "RepositoryImpl,
  },
];
"].

(** [// SERVICE] *)
Definition service_path : template :=
  [V_base; Lit "/"; V_name; Lit ".service.ts"].

Definition service_text : template :=
  [Lit "import { Injectable, NotFoundException } from '@nestjs/common';
import type { ";
   V_Name;
   Lit "Repository } from './infrastructure/repositories/";
   V_name;
   Lit ".repository';
import { Create";
   V_Name;
   Lit "Dto } from './dto/create-";
   V_name;
   Lit ".dto';
import { Update";
   V_Name;
   Lit "Dto } from './dto/update-";
   V_name;
   Lit ".dto';
import { Filter";
   V_Name;
   Lit "Dto } from './dto/filter-";
   V_name;
   Lit ".dto';
import { PaginationDto } from 'src/common/dto/pagination.dto';
import { ";
   V_Name;
   Lit "Entity } from './infrastructure/entities/";
   V_name;
   Lit ".entity';

@Injectable()
export class ";
   V_Name;
   Lit "Service {
  constructor(
    private readonly repo: ";
   V_Name;
   Lit "Repository,
  ) {}

  async create(data: Create";
   V_Name;
   Lit "Dto) {
    return this.repo.create(data as Partial<";
   V_Name;
   Lit "Entity>);
  }

  async findAll(pagination: PaginationDto) {
    const result = await this.repo.findAll(pagination);
    return {
      data: result.data,
      paginate: {
        total: result.total,
        limit: result.limit,
        offset: result.offset,
        pages: Math.ceil(result.total / result.limit),
      },
    };
  }

  async findWithFilter(filter: Filter";
   V_Name;
   Lit "Dto) {
    const result = await this.repo.findWithFilter(filter);
    return {
      data: result.data,
      paginate: {
        total: result.total,
        limit: result.limit,
        offset: result.offset,
        pages: Math.ceil(result.total / result.limit),
      },
    };
  }

  async findOne(id: string) {
    const entity = await this.repo.findById(id);
    if (!entity) {
      throw new NotFoundException(`";
   V_Name;
   Lit " ${id} not found`);
    }
    return entity;
  }

  async update(id: string, data: Update";
   V_Name;
   Lit "Dto) {
    await this.findOne(id);
    return this.repo.update(id, data as Partial<";
   V_Name;
   Lit "Entity>);
  }

  async delete(id: string) {
    await this.findOne(id);
    return this.repo.delete(id);
  }
}
"].

(** [// CONTROLLER] *)
Definition controller_path : template :=
  [V_base; Lit "/"; V_name; Lit ".controller.ts"].

Definition controller_text : template :=
  [Lit "import {
  Controller,
  Get,
  Post,
  Body,
  Param,
  Patch,
  Delete,
  Query,
  HttpCode,
  HttpStatus,
  ValidationPipe,
} from '@nestjs/common';
import { ApiOkResponse } from '@nestjs/swagger';
import { ";
   V_Name;
   Lit "Service } from './";
   V_name;
   Lit ".service';
import { Create";
   V_Name;
   Lit "Dto } from './dto/create-";
   V_name;
   Lit ".dto';
import { Update";
   V_Name;
   Lit "Dto } from './dto/update-";
   V_name;
   Lit ".dto';
import { Filter";
   V_Name;
   Lit "Dto } from './dto/filter-";
   V_name;
   Lit ".dto';
import { PaginationDto } from 'src/common/dto/pagination.dto';

@Controller('";
   V_name;
   Lit "')
export class ";
   V_Name;
   Lit "Controller {
  constructor(private readonly service: ";
   V_Name;
   Lit "Service) {}

  @Post()
  @HttpCode(HttpStatus.CREATED)
  @ApiOkResponse({ description: 'Created successfully' })
  create(@Body(ValidationPipe) body: Create";
   V_Name;
   Lit "Dto) {
    return this.service.create(body);
  }

  @Get()
  @ApiOkResponse({ description: 'Get all with pagination' })
  findAll(@Query(ValidationPipe) pagination: PaginationDto) {
    return this.service.findAll(pagination);
  }

  @Get('filter/search')
  @ApiOkResponse({ description: 'Get with filter and search' })
  findWithFilter(@Query(ValidationPipe) filter: Filter";
   V_Name;
   Lit "Dto) {
    return this.service.findWithFilter(filter);
  }

  @Get(':id')
  @ApiOkResponse({ description: 'Get by ID' })
  findOne(@Param('id') id: string) {
    return this.service.findOne(id);
  }

  @Patch(':id')
  @ApiOkResponse({ description: 'Updated successfully' })
  update(
    @Param('id') id: string,
    @Body(ValidationPipe) body: Update";
   V_Name;
   Lit "Dto,
  ) {
    return this.service.update(id, body);
  }

  @Delete(':id')
  @HttpCode(HttpStatus.NO_CONTENT)
  @ApiOkResponse({ description: 'Deleted successfully' })
  remove(@Param('id') id: string) {
    return this.service.delete(id);
  }
}
"].

(** [// MODULE] *)
Definition module_path : template :=
  [V_base; Lit "/"; V_name; Lit ".module.ts"].

Definition module_text : template :=
  [Lit "import { Module } from '@nestjs/common';
import { TypeOrmModule } from '@nestjs/typeorm';
import { ";
   V_Name;
   Lit "Controller } from './";
   V_name;
   Lit ".controller';
import { ";
   V_Name;
   Lit "Service } from './";
   V_name;
   Lit ".service';
import { ";
   V_Name;
   Lit "Entity } from './infrastructure/entities/";
   V_name;
   Lit ".entity';
import { ";
   V_Name;
   Lit "Providers } from './infrastructure/providers/";
   V_name;
   Lit ".providers';

@Module({
  imports: [TypeOrmModule.forFeature([";
   V_Name;
   Lit "Entity])],
  controllers: [";
   V_Name;
   Lit "Controller],
  providers: [";
   V_Name;
   Lit "Service, ...";
   V_Name;
   Lit "Providers],
  exports: [";
   V_Name;
   Lit "Service],
})
export class ";
   V_Name;
   Lit "Module {}
"].

Definition entries : list (template * template) :=
  [ (domain_path, domain_text);
    (create_dto_path, create_dto_text);
    (update_dto_path, update_dto_text);
    (filter_dto_path, filter_dto_text);
    (entity_path, entity_text);
    (repository_path, repository_text);
    (repository_impl_path, repository_impl_text);
    (mapper_path, mapper_text);
    (providers_path, providers_text);
    (service_path, service_text);
    (controller_path, controller_text);
    (module_path, module_text) ].

End Template.

(** ** JavaScript objects with string keys

    An object keeps its own string keys in insertion order; defining a key
    that exists replaces the value and keeps the key's position.  (Keys that
    look like array indices would be listed first by [for ... in]; every key
    of [files] ends in [.ts].) *)

Module JsObject.

Definition obj : Type := list (string * string).

Fixpoint set (k v : string) (o : obj) : obj :=
  match o with
  | [] => [(k, v)]
  | (k', v') :: o' =>
      if String.eqb k k' then (k', v) :: o' else (k', v') :: set k v o'
  end.

Fixpoint get (o : obj) (k : string) : option string :=
  match o with
  | [] => None
  | (k', v') :: o' => if String.eqb k k' then Some v' else get o' k
  end.

Definition keys (o : obj) : list string := o.*1.

(** An object literal defines its properties from left to right. *)
Definition literal (props : list (string * string)) : obj :=
  foldl (fun o kv => set kv.1 kv.2 o) [] props.

End JsObject.

(** ** The generator script *)

Module Generator.

Import Template.

Inductive fs_op : Type :=
  | MkdirSync (dir : string)
  | WriteFileSync (path content : string).

Inductive stream : Type := Stdout | Stderr.

(** What a run can touch: the directories and files on disk, the console,
    and the record of the filesystem calls made.  The calls are taken to
    succeed: a write is modelled where its directory exists, which for the
    files of a module is the case when the name holds no path separator. *)
Record world : Type := World {
  fs_dirs : gset string;
  fs_files : gmap string string;
  console : list (stream * string);
  fs_calls : list fs_op
}.

(** The directories on the way to [s]: what stands before each of its
    separators. *)
Fixpoint parents (seen s : string) : list string :=
  match s with
  | EmptyString => []
  | String c s' =>
      if Ascii.eqb c "/"%char
      then (if String.eqb seen "" then [] else [seen])
           ++ parents (seen +:+ "/") s'
      else parents (seen +:+ String c "") s'
  end.

Definition with_ancestors (dir : string) : list string :=
  parents "" dir ++ [dir].

(** [fs.mkdirSync(dir, { recursive: true })]: the directory and every
    missing directory on the way to it. *)
Definition mkdirSync (dir : string) (w : world) : world :=
  {| fs_dirs := list_to_set (with_ancestors dir) ∪ fs_dirs w;
     fs_files := fs_files w;
     console := console w;
     fs_calls := fs_calls w ++ [MkdirSync dir] |}.

Definition writeFileSync (path content : string) (w : world) : world :=
  {| fs_dirs := fs_dirs w;
     fs_files := <[ path := content ]> (fs_files w);
     console := console w;
     fs_calls := fs_calls w ++ [WriteFileSync path content] |}.

Definition print (s : stream) (line : string) (w : world) : world :=
  {| fs_dirs := fs_dirs w;
     fs_files := fs_files w;
     console := console w ++ [(s, line)];
     fs_calls := fs_calls w |}.

Definition console_error : string -> world -> world := print Stderr.
Definition console_log : string -> world -> world := print Stdout.

(** [!name] for a value that is a string or [undefined]. *)
Definition not_name (name : option string) : bool :=
  match name with
  | None => true
  | Some s => String.eqb s ""
  end.

Definition charAt0 (str : string) : string :=
  match str with
  | EmptyString => ""
  | String c _ => String c ""
  end.

(** The double-quote character of the success message. *)
Definition dquote : string := String (Ascii.ascii_of_nat 34) "".

Definition slice1 (str : string) : string :=
  match str with
  | EmptyString => ""
  | String _ rest => rest
  end.

Section Script.

(** The two functions of the host runtime the script calls: Node's
    [path.join] and [String.prototype.toUpperCase]. *)
Variable path_join : list string -> string.
Variable toUpperCase : string -> string.

Definition capitalize (str : string) : string :=
  toUpperCase (charAt0 str) +:+ slice1 str.

Definition base_of (name : string) : string :=
  path_join ["src"; "core"; name].

Definition folders (base : string) : list string :=
  [ base;
    base +:+ "/domain";
    base +:+ "/dto";
    base +:+ "/infrastructure/entities";
    base +:+ "/infrastructure/repositories";
    base +:+ "/infrastructure/providers";
    base +:+ "/mappers" ].

Definition variants_of (name : string) : variants :=
  {| var_base := base_of name;
     var_name := name;
     var_Name := capitalize name |}.

(** The properties of the [files] literal, rendered. *)
Definition props (name : string) : list (string * string) :=
  map (fun e => (render (variants_of name) e.1, render (variants_of name) e.2))
      entries.

Definition files (name : string) : JsObject.obj :=
  JsObject.literal (props name).

Definition write_all (o : JsObject.obj) (w : world) : world :=
  foldl (fun w file =>
           match JsObject.get o file with
           | Some content => writeFileSync file content w
           | None => w
           end)
        w (JsObject.keys o).

Definition report (name : string) (w : world) : world :=
  foldl (fun w line => console_log line w) w
    [ "✅ Enterprise module " +:+ dquote +:+ name +:+ dquote +:+ " generated with:";
      "  ✓ Pagination (limit, offset, sort, order)";
      "  ✓ Filter & Search";
      "  ✓ Mapper (toDomain, toEntity with Id check)";
      "  ✓ DTOs with validation";
      "  ✓ Constructor for entities";
      "  ✓ @ApiOkResponse decorators";
      "  ✓ Full CRUD with Repository pattern";
      "  ✓ Centralized providers file" ].

(** The script, top to bottom.  The result is the exit status and the
    world it leaves. *)
Definition main (argv : list string) (w : world) : Z * world :=
  let name := argv !! 2%nat in
  if not_name name then
    (1, console_error "❌ Module name required" w)
  else
    let name := default "" name in
    let NAME := toUpperCase name in
    let w := foldl (fun w dir => mkdirSync dir w) w (folders (base_of name)) in
    let w := write_all (files name) w in
    (0, report name w).

End Script.

End Generator.

(** ** The pagination request ([pagination.dto.ts]) *)

Module PaginationDto.

(** A JavaScript number as the validator sees it: a finite value, taken as
    an exact rational, or [NaN] (what [Number] makes of text that is not a
    number). *)
Inductive number : Type :=
  | Num (q : Q)
  | NaN.

(** The class: a field is a value or [undefined]. *)
Record t : Type := Dto {
  limit : option number;
  offset : option number;
  sort : option string;
  order : option string
}.

(** [new PaginationDto()]: the field initialisers. *)
Definition new : t :=
  {| limit := Some (Num 10);
     offset := Some (Num 0);
     sort := Some "createdAt";
     order := Some "DESC" |}.

(** The query object once [@Type(() => Number)] has been applied to the
    numeric keys; [None] is a key the request does not carry. *)
Record plain : Type := Plain {
  q_limit : option number;
  q_offset : option number;
  q_sort : option string;
  q_order : option string
}.

(** Building the instance: start from [new], assign the keys present. *)
Definition assign_key {A} (supplied : option A) (initial : option A) : option A :=
  match supplied with
  | Some v => Some v
  | None => initial
  end.

Definition plainToInstance (p : plain) : t :=
  {| limit := assign_key (q_limit p) (limit new);
     offset := assign_key (q_offset p) (offset new);
     sort := assign_key (q_sort p) (sort new);
     order := assign_key (q_order p) (order new) |}.

(** The decorators.  [@Min(k)]: the value is a number and [k <= value].
    [@IsOptional()]: an undefined field skips its other checks.
    [@IsString()] holds of every value of type [string]. *)
Definition Min (k : Q) (v : number) : bool :=
  match v with
  | Num q => Qle_bool k q
  | NaN => false
  end.

Definition IsString (s : string) : bool := true.

Definition IsOptional {A} (check : A -> bool) (v : option A) : bool :=
  match v with
  | None => true
  | Some x => check x
  end.

Definition validate (d : t) : bool :=
  IsOptional (Min 1) (limit d)
  && IsOptional (Min 0) (offset d)
  && IsOptional IsString (sort d)
  && IsOptional IsString (order d).

Definition is_integer (v : number) : Prop :=
  match v with
  | Num q => exists z : Z, Qeq q (inject_Z z)
  | NaN => False
  end.

End PaginationDto.

(** ** The ORM repository the adapter is injected with

    [Repository<Entity>] is the persistence collaborator.  A table is the
    list of its rows; what a row is, and how the database orders rows and
    matches [ILIKE] patterns, is the entity's and the database's business
    and enters through [Entity].  The methods follow the ORM's contract:
    finds leave soft-deleted rows out; [findAndCount] orders the matching
    rows, skips [skip] and takes [take] of them, and counts the matching
    rows without regard to [skip] and [take]; [update] and [softDelete]
    act on the rows with the given id, deleted or not.  The ORM rejects a
    query whose where clause or order names a field that is no column of
    the entity; the table answers every query, so what is said of a
    result is said of a query that settles. *)

Module Orm.

Class Entity (E : Type) : Type := {
  (** [Partial<Entity>] *)
  partial : Type;
  (** the primary column *)
  entity_id : E -> string;
  (** the [@DeleteDateColumn] is set *)
  is_deleted : E -> bool;
  (** the text stored in a named column; [None] for NULL or no such text *)
  column_text : string -> E -> option string;
  (** [text ILIKE pattern] *)
  ilike : string -> string -> bool;
  (** [ORDER BY column direction] *)
  order_by : string -> string -> list E -> list E;
  (** [Object.assign(row, data)] with a refreshed [updatedAt] *)
  assign : partial -> E -> E;
  (** the row with its delete date set *)
  mark_deleted : E -> E;
  (** the row [save] inserts for [create(data)] into the given table *)
  instantiate : partial -> list E -> E
}.

Inductive where_clause : Type :=
  | WhereAll
  | WhereId (id : string)
  | WhereILike (column pattern : string).

Record FindManyOptions : Type := FindMany {
  fo_where : where_clause;
  fo_take : Z;
  fo_skip : Z;
  fo_order : string * string
}.

Section Table.

Context {E : Type} `{Entity E}.

Inductive call : Type :=
  | Save (data : partial)
  | FindAndCount (options : FindManyOptions)
  | FindOne (w : where_clause)
  | Update (id : string) (data : partial)
  | SoftDelete (id : string).

Definition satisfies (w : where_clause) (e : E) : bool :=
  match w with
  | WhereAll => true
  | WhereId id => String.eqb (entity_id e) id
  | WhereILike column pattern =>
      match column_text column e with
      | Some text => ilike pattern text
      | None => false
      end
  end.

(** The rows a find sees: soft-deleted rows are left out. *)
Definition matching (w : where_clause) (rows : list E) : list E :=
  List.filter (fun e => negb (is_deleted e) && satisfies w e) rows.

Definition findAndCount (o : FindManyOptions) (rows : list E) : list E * Z :=
  let found := matching (fo_where o) rows in
  let ordered := order_by (fo_order o).1 (fo_order o).2 found in
  (take (Z.to_nat (fo_take o)) (drop (Z.to_nat (fo_skip o)) ordered),
   Z.of_nat (length found)).

Definition findOne (w : where_clause) (rows : list E) : option E :=
  head (matching w rows).

Definition update (id : string) (data : partial) (rows : list E) : list E :=
  map (fun e => if String.eqb (entity_id e) id then assign data e else e) rows.

Definition softDelete (id : string) (rows : list E) : list E :=
  map (fun e => if String.eqb (entity_id e) id then mark_deleted e else e) rows.

Definition save (data : partial) (rows : list E) : E * list E :=
  let e := instantiate data rows in (e, rows ++ [e]).

End Table.

End Orm.

(** ** Promises over the database

    An awaited call runs against the table and records itself; it settles
    to a value or rejects with an error. *)

Module Async.

Import Orm.

Inductive error : Type :=
  | NotFoundException (message : string)
  | Error (message : string).

Inductive settled (A : Type) : Type :=
  | Ok (value : A)
  | Err (e : error).

Arguments Ok {A} value.
Arguments Err {A} e.

Section Monad.

Context {E : Type} `{Entity E}.

Record db : Type := Db {
  table : list E;
  calls : list call
}.

Definition promise (A : Type) : Type := db -> settled A * db.

Definition resolve {A} (a : A) : promise A := fun d => (Ok a, d).

Definition throw {A} (e : error) : promise A := fun d => (Err e, d).

Definition await {A B} (p : promise A) (k : A -> promise B) : promise B :=
  fun d =>
    match p d with
    | (Ok a, d') => k a d'
    | (Err e, d') => (Err e, d')
    end.

(** The five repository methods the adapter calls. *)
Definition record (c : call) (d : db) : db :=
  {| table := table d; calls := calls d ++ [c] |}.

Definition repo_save (data : partial) : promise E :=
  fun d =>
    let '(e, rows) := save data (table d) in
    (Ok e, {| table := rows; calls := calls d ++ [Save data] |}).

Definition repo_findAndCount (o : FindManyOptions) : promise (list E * Z) :=
  fun d => (Ok (findAndCount o (table d)), record (FindAndCount o) d).

Definition repo_findOne (w : where_clause) : promise (option E) :=
  fun d => (Ok (findOne w (table d)), record (FindOne w) d).

Definition repo_update (id : string) (data : partial) : promise unit :=
  fun d =>
    (Ok tt, {| table := update id data (table d);
               calls := calls d ++ [Update id data] |}).

Definition repo_softDelete (id : string) : promise unit :=
  fun d =>
    (Ok tt, {| table := softDelete id (table d);
               calls := calls d ++ [SoftDelete id] |}).

End Monad.

Arguments db E {_}.
Arguments promise E {_} A.

#[global] Instance promise_bind {E} `{Entity E} : MBind (promise E) :=
  fun A B k p => await p k.

#[global] Instance promise_ret {E} `{Entity E} : MRet (promise E) :=
  fun A a => resolve a.

End Async.

(** ** The listing parameters

    [pagination: any] and [filter: any] as the adapter reads them: the
    fields of [PaginationDto] and of [Filter<Name>Dto], each a value of its
    declared type or absent.  Limit and offset are integers here. *)

Module Params.

Record t : Type := Params {
  limit : option Z;
  offset : option Z;
  sort : option string;
  order : option string;
  search : option string
}.

(** Truthiness of a number and of a string. *)
Definition truthy_number (n : Z) : bool := negb (n =? 0).
Definition truthy_string (s : string) : bool := negb (String.eqb s "").

(** [value || fallback] *)
Definition number_or (value : option Z) (fallback : Z) : Z :=
  match value with
  | Some n => if truthy_number n then n else fallback
  | None => fallback
  end.

Definition string_or (value : option string) (fallback : string) : string :=
  match value with
  | Some s => if truthy_string s then s else fallback
  | None => fallback
  end.

(** A field is falsy when it is absent, [0] or the empty string. *)
Definition falsy_number (value : option Z) : bool :=
  match value with
  | Some n => negb (truthy_number n)
  | None => true
  end.

Definition falsy_string (value : option string) : bool :=
  match value with
  | Some s => negb (truthy_string s)
  | None => true
  end.

End Params.

Record PaginatedResult (E : Type) : Type := Paginated {
  data : list E;
  total : Z;
  limit : Z;
  offset : Z
}.

Arguments Paginated {E} data total limit offset.
Arguments data {E} _.
Arguments total {E} _.
Arguments limit {E} _.
Arguments offset {E} _.

(** ** The generated repository adapter ([<Name>RepositoryImpl]) *)

Module RepositoryImpl.

Import Orm Async.

(** The columns the generated entity declares. *)
Definition entity_columns : list string :=
  ["id"; "createdAt"; "updatedAt"; "deletedAt"].

Section Adapter.

Context {E : Type} `{Entity E}.

Definition create (data : partial) : promise E E :=
  repo_save data.

Definition findAll (pagination : Params.t) : promise E (PaginatedResult E) :=
  let limit := Params.number_or (Params.limit pagination) 10 in
  let offset := Params.number_or (Params.offset pagination) 0 in
  let sort := Params.string_or (Params.sort pagination) "createdAt" in
  let order := Params.string_or (Params.order pagination) "DESC" in
  '(data, total) ←
    repo_findAndCount {| fo_where := WhereAll;
                         fo_take := limit;
                         fo_skip := offset;
                         fo_order := (sort, order) |};
  resolve (Paginated data total limit offset).

Definition findById (id : string) : promise E (option E) :=
  repo_findOne (WhereId id).

(** [search ? { guestName: ILike(`%${search}%`) } : {}] *)
Definition where_of (search : option string) : where_clause :=
  match search with
  | Some s =>
      if Params.truthy_string s
      then WhereILike "guestName" ("%" +:+ s +:+ "%")
      else WhereAll
  | None => WhereAll
  end.

Definition findWithFilter (filter : Params.t) : promise E (PaginatedResult E) :=
  let limit := Params.number_or (Params.limit filter) 10 in
  let offset := Params.number_or (Params.offset filter) 0 in
  let sort := Params.string_or (Params.sort filter) "createdAt" in
  let order := Params.string_or (Params.order filter) "DESC" in
  let search := Params.search filter in
  let where' := where_of search in
  '(data, total) ←
    repo_findAndCount {| fo_where := where';
                         fo_take := limit;
                         fo_skip := offset;
                         fo_order := (sort, order) |};
  resolve (Paginated data total limit offset).

Definition update (id : string) (data : partial) : promise E E :=
  _ ← repo_update id data;
  entity ← findById id;
  match entity with
  | None => throw (Error ("Entity " +:+ id +:+ " not found"))
  | Some entity => resolve entity
  end.

Definition delete (id : string) : promise E unit :=
  repo_softDelete id.

End Adapter.

End RepositoryImpl.

(** ** The generated service ([<Name>Service]) *)

Record Paginate : Type := MkPaginate {
  p_total : Z;
  p_limit : Z;
  p_offset : Z;
  p_pages : Z
}.

Record Envelope (E : Type) : Type := MkEnvelope {
  e_data : list E;
  e_paginate : Paginate
}.

Arguments MkEnvelope {E} e_data e_paginate.
Arguments e_data {E} _.
Arguments e_paginate {E} _.

(** [Math.ceil(total / limit)] for integers, the quotient taken exactly
    (as the double quotient gives it for counts below 2^53).  A zero
    [limit] would give [Infinity] or [NaN]; the adapter never returns one,
    see [number_or_limit_nonzero]. *)
Definition Math_ceil_div (total limit : Z) : Z :=
  Qceiling (Qdiv (inject_Z total) (inject_Z limit)).

Module Service.

Import Orm Async.

Section Service.

Context {E : Type} `{Entity E}.

(** The capitalised resource name the template stamps into the message. *)
Variable Name : string.

Definition envelope (result : PaginatedResult E) : Envelope E :=
  {| e_data := data result;
     e_paginate :=
       {| p_total := total result;
          p_limit := limit result;
          p_offset := offset result;
          p_pages := Math_ceil_div (total result) (limit result) |} |}.

Definition create (data : partial) : promise E E :=
  RepositoryImpl.create data.

Definition findAll (pagination : Params.t) : promise E (Envelope E) :=
  result ← RepositoryImpl.findAll pagination;
  resolve (envelope result).

Definition findWithFilter (filter : Params.t) : promise E (Envelope E) :=
  result ← RepositoryImpl.findWithFilter filter;
  resolve (envelope result).

Definition findOne (id : string) : promise E E :=
  entity ← RepositoryImpl.findById id;
  match entity with
  | None => throw (NotFoundException (Name +:+ " " +:+ id +:+ " not found"))
  | Some entity => resolve entity
  end.

Definition update (id : string) (data : partial) : promise E E :=
  _ ← findOne id;
  RepositoryImpl.update id data.

Definition delete (id : string) : promise E unit :=
  _ ← findOne id;
  RepositoryImpl.delete id.

End Service.

End Service.

(** ** The generated mapper ([<Name>Mapper]) and the classes it maps

    Dates are instants, integers here.  An optional field is a value or
    [undefined]. *)

Module Mapper.

(** [<Name>Entity]: the four columns. *)
Module Entity.
Record t : Type := Make {
  id : string;
  createdAt : Z;
  updatedAt : Z;
  deletedAt : option Z
}.
End Entity.

(** [Partial<<Name>Entity>] *)
Module PartialEntity.
Record t : Type := Make {
  id : option string;
  createdAt : option Z;
  updatedAt : option Z;
  deletedAt : option Z
}.

(** [{}] *)
Definition empty : t :=
  {| id := None; createdAt := None; updatedAt := None; deletedAt := None |}.
End PartialEntity.

(** [<Name>]: the domain class, every field optional. *)
Module Domain.
Record t : Type := Make {
  id : option string;
  createdAt : option Z;
  updatedAt : option Z;
  deletedAt : option Z
}.

(** [new <Name>(partial)]: [Object.assign(this, partial)] on an object
    with no field set. *)
Definition new (partial : t) : t :=
  {| id := id partial;
     createdAt := createdAt partial;
     updatedAt := updatedAt partial;
     deletedAt := deletedAt partial |}.
End Domain.

Definition toDomain (entity : Entity.t) : Domain.t :=
  Domain.new
    {| Domain.id := Some (Entity.id entity);
       Domain.createdAt := Some (Entity.createdAt entity);
       Domain.updatedAt := Some (Entity.updatedAt entity);
       Domain.deletedAt := Entity.deletedAt entity |}.

Definition toEntity (domain : Domain.t) : PartialEntity.t :=
  let entity := PartialEntity.empty in
  match Domain.id domain with
  | Some id =>
      if Params.truthy_string id
      then {| PartialEntity.id := Some id;
              PartialEntity.createdAt := PartialEntity.createdAt entity;
              PartialEntity.updatedAt := PartialEntity.updatedAt entity;
              PartialEntity.deletedAt := PartialEntity.deletedAt entity |}
      else entity
  | None => entity
  end.

End Mapper.

(** ** A sample table

    A resource with a [guestName] column, a POSIX [path.join] for plain
    names and an ASCII [toUpperCase]: the concrete instance the closed
    examples run on. *)

Module Sample.

Import Orm.

Definition upper_ascii (c : Ascii.ascii) : Ascii.ascii :=
  let n := Ascii.nat_of_ascii c in
  if (97 <=? n)%nat && (n <=? 122)%nat then Ascii.ascii_of_nat (n - 32) else c.

Definition lower_ascii (c : Ascii.ascii) : Ascii.ascii :=
  let n := Ascii.nat_of_ascii c in
  if (65 <=? n)%nat && (n <=? 90)%nat then Ascii.ascii_of_nat (n + 32) else c.

Fixpoint toUpperCase (s : string) : string :=
  match s with
  | EmptyString => ""
  | String c rest => String (upper_ascii c) (toUpperCase rest)
  end.

Fixpoint join_with (sep : string) (segments : list string) : string :=
  match segments with
  | [] => ""
  | [s] => s
  | s :: rest => s +:+ sep +:+ join_with sep rest
  end.

Definition path_join (segments : list string) : string :=
  join_with "/" segments.

Record Guest : Type := MkGuest {
  id : string;
  createdAt : Z;
  updatedAt : Z;
  deletedAt : option Z;
  guestName : option string
}.

(** [LIKE] with [%] for any run of characters and [_] for any one,
    letters compared without case. *)
Fixpoint like (pattern text : string) {struct pattern} : bool :=
  match pattern with
  | EmptyString =>
      match text with EmptyString => true | String _ _ => false end
  | String p pattern' =>
      if Ascii.eqb p "%"%char then
        (fix skip (t : string) : bool :=
           like pattern' t
           || match t with
              | EmptyString => false
              | String _ t' => skip t'
              end) text
      else
        match text with
        | EmptyString => false
        | String c text' =>
            (Ascii.eqb p "_"%char || Ascii.eqb (lower_ascii p) (lower_ascii c))
            && like pattern' text'
        end
  end.

Definition sort_key (column : string) (g : Guest) : Z :=
  if String.eqb column "createdAt" then createdAt g
  else if String.eqb column "updatedAt" then updatedAt g
  else 0.

Fixpoint insert_by (le : Guest -> Guest -> bool) (g : Guest) (l : list Guest)
  : list Guest :=
  match l with
  | [] => [g]
  | h :: l' => if le g h then g :: h :: l' else h :: insert_by le g l'
  end.

Definition sort_rows (column direction : string) (l : list Guest) : list Guest :=
  let le a b :=
    if String.eqb direction "ASC"
    then sort_key column a <=? sort_key column b
    else sort_key column b <=? sort_key column a in
  foldr (insert_by le) [] l.

#[global] Instance Guest_entity : Entity Guest := {
  partial := option string;
  entity_id := id;
  is_deleted g := bool_decide (is_Some (deletedAt g));
  column_text column g :=
    if String.eqb column "guestName" then guestName g
    else if String.eqb column "id" then Some (id g)
    else None;
  ilike := like;
  order_by := sort_rows;
  assign data g :=
    {| id := id g; createdAt := createdAt g; updatedAt := updatedAt g + 1;
       deletedAt := deletedAt g;
       guestName := match data with Some n => Some n | None => guestName g end |};
  mark_deleted g :=
    {| id := id g; createdAt := createdAt g; updatedAt := updatedAt g;
       deletedAt := Some (updatedAt g + 1); guestName := guestName g |};
  instantiate data rows :=
    {| id := "g" +:+ String.concat "" (replicate (length rows) "+"); createdAt := Z.of_nat (length rows);
       updatedAt := Z.of_nat (length rows); deletedAt := None;
       guestName := data |}
}.

Definition alice : Guest :=
  {| id := "a1"; createdAt := 1; updatedAt := 1; deletedAt := None;
     guestName := Some "Alice" |}.

Definition bob : Guest :=
  {| id := "b2"; createdAt := 2; updatedAt := 2; deletedAt := None;
     guestName := Some "Bob" |}.

Definition carol : Guest :=
  {| id := "c3"; createdAt := 3; updatedAt := 3; deletedAt := Some 4;
     guestName := Some "Carol" |}.

(** The update body [{ guestName: "Eve" }]. *)
Definition rename_eve : @partial Guest Guest_entity := Some "Eve".

(** A guest whose name column is NULL. *)
Definition dave : Guest :=
  {| id := "d4"; createdAt := 4; updatedAt := 4; deletedAt := None;
     guestName := None |}.

(** Requests: no field set; a search for [li]; a limit of [0]. *)
Definition no_params : Params.t :=
  {| Params.limit := None; Params.offset := None; Params.sort := None;
     Params.order := None; Params.search := None |}.

Definition search_li : Params.t :=
  {| Params.limit := None; Params.offset := None; Params.sort := None;
     Params.order := None; Params.search := Some "li" |}.

Definition limit_zero : Params.t :=
  {| Params.limit := Some 0; Params.offset := Some 0; Params.sort := Some "";
     Params.order := Some ""; Params.search := None |}.

Definition guests : Async.db Guest :=
  {| Async.table := [alice; bob; carol]; Async.calls := [] |}.

Definition unnamed_guests : Async.db Guest :=
  {| Async.table := [alice; dave]; Async.calls := [] |}.

Definition search_empty : Params.t :=
  {| Params.limit := None; Params.offset := None; Params.sort := None;
     Params.order := None; Params.search := Some "" |}.

Definition second_page : Params.t :=
  {| Params.limit := Some 1; Params.offset := Some 1; Params.sort := None;
     Params.order := Some "ASC"; Params.search := None |}.

Definition past_the_end : Params.t :=
  {| Params.limit := Some 5; Params.offset := Some 7; Params.sort := None;
     Params.order := None; Params.search := None |}.

Definition empty_world : Generator.world :=
  {| Generator.fs_dirs := ∅; Generator.fs_files := ∅;
     Generator.console := []; Generator.fs_calls := [] |}.

(** A disk that already holds a module file for [room], with other text. *)
Definition stale_world : Generator.world :=
  {| Generator.fs_dirs := {[ "src/core/room" ]};
     Generator.fs_files := {[ "src/core/room/room.module.ts" := "// old" ]};
     Generator.console := [];
     Generator.fs_calls := [] |}.

Definition run (argv : list string) (w : Generator.world) : Z * Generator.world :=
  Generator.main path_join toUpperCase argv w.

Definition room_argv : list string := ["node"; "generate-module.js"; "room"].

End Sample.

(** * Vocabulary of the statements *)

(** The path each template is written to, spelled out. *)
Definition designated_paths (base name : string) : list string :=
  [ base +:+ "/domain/" +:+ name +:+ ".domain.ts";
    base +:+ "/dto/create-" +:+ name +:+ ".dto.ts";
    base +:+ "/dto/update-" +:+ name +:+ ".dto.ts";
    base +:+ "/dto/filter-" +:+ name +:+ ".dto.ts";
    base +:+ "/infrastructure/entities/" +:+ name +:+ ".entity.ts";
    base +:+ "/infrastructure/repositories/" +:+ name +:+ ".repository.ts";
    base +:+ "/infrastructure/repositories/" +:+ name +:+ ".repository.impl.ts";
    base +:+ "/mappers/" +:+ name +:+ ".mapper.ts";
    base +:+ "/infrastructure/providers/" +:+ name +:+ ".providers.ts";
    base +:+ "/" +:+ name +:+ ".service.ts";
    base +:+ "/" +:+ name +:+ ".controller.ts";
    base +:+ "/" +:+ name +:+ ".module.ts" ].


(** The file set a sequence of filesystem calls leaves behind, starting
    from nothing: path to content, a later write replacing an earlier one. *)
Definition written (ops : list Generator.fs_op) : gmap string string :=
  foldl (fun m op =>
           match op with
           | Generator.WriteFileSync path content => <[ path := content ]> m
           | Generator.MkdirSync _ => m
           end) ∅ ops.

Definition is_write (op : Generator.fs_op) : bool :=
  match op with
  | Generator.WriteFileSync _ _ => true
  | Generator.MkdirSync _ => false
  end.

(** The calls a successful run makes, as a function of the name alone. *)
Definition generated_calls (path_join : list string -> string)
    (toUpperCase : string -> string) (name : string) : list Generator.fs_op :=
  map Generator.MkdirSync
      (Generator.folders (Generator.base_of path_join name))
  ++ map (fun kv => Generator.WriteFileSync kv.1 kv.2)
         (Generator.props path_join toUpperCase name).

(** [needle] occurs in [s]. *)
Fixpoint contains (needle s : string) : bool :=
  String.prefix needle s
  || match s with
     | EmptyString => false
     | String _ s' => contains needle s'
     end.

(** The number of positions of [s] at which [needle] starts. *)
Fixpoint occurrences (needle s : string) : nat :=
  ((if String.prefix needle s then 1 else 0)
   + match s with
     | EmptyString => 0
     | String _ s' => occurrences needle s'
     end)%nat.

(** Some literal chunk of the template contains [needle]. *)
Definition template_mentions (needle : string) (t : Template.template) : bool :=
  existsb (contains needle) (Template.literals t).

(** [pages] is the ceiling of [total / limit]: the one integer with
    [(pages - 1) * limit < total <= pages * limit]. *)
Definition is_ceiling_of_quotient (total limit pages : Z) : Prop :=
  (pages - 1) * limit < total /\ total <= pages * limit.

(** The listing algorithm in the words of the specification: filter by
    case-insensitive partial match on the search field when a search term
    is given, sort by the named field and direction, skip [offset] rows,
    take [limit] rows, and count the matching rows before pagination. *)
Section ListingSpec.

Context {E : Type} `{Orm.Entity E}.

Definition partial_match (term : string) (e : E) : bool :=
  match Orm.column_text "guestName" e with
  | Some text => Orm.ilike ("%" +:+ term +:+ "%") text
  | None => false
  end.

Definition listing (search : option string) (sort order : string)
    (offset limit : Z) (rows : list E) : list E * Z :=
  let live := List.filter (fun e => negb (Orm.is_deleted e)) rows in
  let found :=
    match search with
    | Some term => List.filter (partial_match term) live
    | None => live
    end in
  let sorted := Orm.order_by sort order found in
  (take (Z.to_nat limit) (drop (Z.to_nat offset) sorted),
   Z.of_nat (length found)).

End ListingSpec.

(** What the adapter asks of the ORM for a listing. *)
Definition options_of (w : Orm.where_clause) (p : Params.t)
  : Orm.FindManyOptions :=
  {| Orm.fo_where := w;
     Orm.fo_take := Params.number_or (Params.limit p) 10;
     Orm.fo_skip := Params.number_or (Params.offset p) 0;
     Orm.fo_order := (Params.string_or (Params.sort p) "createdAt",
                      Params.string_or (Params.order p) "DESC") |}.

(** The search term [findWithFilter] acts on: a non-empty string. *)
Definition effective_search (search : option string) : option string :=
  match search with
  | Some s => if Params.truthy_string s then Some s else None
  | None => None
  end.

(** The envelope the service returns for a repository result. *)
Definition is_listing_envelope {E : Type} (r : PaginatedResult E)
    (e : Envelope E) : Prop :=
  e_data e = data r
  /\ p_total (e_paginate e) = total r
  /\ p_limit (e_paginate e) = limit r
  /\ p_offset (e_paginate e) = offset r
  /\ is_ceiling_of_quotient (total r) (limit r) (p_pages (e_paginate e)).

(** The result a listing operation would settle to if it filtered whenever
    the request carries a search term. *)
Definition claimed_listing {E : Type} `{Orm.Entity E} (p : Params.t)
    (d : Async.db E) : Async.settled (PaginatedResult E) :=
  let l := Params.number_or (Params.limit p) 10 in
  let o := Params.number_or (Params.offset p) 0 in
  let r := listing (Params.search p)
             (Params.string_or (Params.sort p) "createdAt")
             (Params.string_or (Params.order p) "DESC")
             o l (Async.table d) in
  Async.Ok (Paginated r.1 r.2 l o).

(** The calls a promise adds to the record when run from [d]. *)
Definition mutates {E : Type} `{Orm.Entity E} (c : Orm.call) : bool :=
  match c with
  | Orm.Save _ | Orm.Update _ _ | Orm.SoftDelete _ => true
  | Orm.FindAndCount _ | Orm.FindOne _ => false
  end.

(** The four column declarations of the entity template, decorator and
    field, as they stand in its text. *)
Definition entity_column_declarations : list string :=
  [ "@PrimaryGeneratedColumn('uuid')
  id: string;";
    "@CreateDateColumn()
  createdAt: Date;";
    "@UpdateDateColumn()
  updatedAt: Date;";
    "@DeleteDateColumn({ nullable: true })
  deletedAt?: Date;" ].

(** The number of column decorators applied in a template. *)
Definition column_decorators (t : Template.template) : nat :=
  list_sum (map (occurrences "Column(") (Template.literals t)).

(** The where clause of the adapter template, as its text has it. *)
Definition guestName_clause : string :=
  "search ? { guestName: ILike(`%${search}%`) } : {}".

(** * Vocabulary of the further properties *)

(** The string holds no path separator. *)
Fixpoint no_slash (s : string) : bool :=
  match s with
  | EmptyString => true
  | String c s' => negb (Ascii.eqb c "/"%char) && no_slash s'
  end.

(** The template interpolates [${base}]. *)
Definition uses_base (t : Template.template) : bool :=
  existsb (fun p => match p with Template.V_base => true | _ => false end) t.

(** The request [p] with its offset and limit replaced. *)
Definition with_window (offset limit : Z) (p : Params.t) : Params.t :=
  {| Params.limit := Some limit;
     Params.offset := Some offset;
     Params.sort := Params.sort p;
     Params.order := Params.order p;
     Params.search := Params.search p |}.

(** The rows and the total a settled listing carries, nothing for a
    rejected one. *)
Definition rows_of {E : Type} (s : Async.settled (PaginatedResult E)) : list E :=
  match s with
  | Async.Ok r => data r
  | Async.Err _ => []
  end.

Definition total_of {E : Type} (s : Async.settled (PaginatedResult E)) : Z :=
  match s with
  | Async.Ok r => total r
  | Async.Err _ => 0
  end.

(** The laws of a database that the properties of pages, updates and soft
    deletes rest on: ordering keeps the number of rows; assigning to a row
    keeps its id and its delete date; marking a row deleted sets the delete
    date and keeps the id. *)
Definition order_keeps_length {E : Type} `{Orm.Entity E} : Prop :=
  forall (column direction : string) (rows : list E),
    length (Orm.order_by column direction rows) = length rows.

Definition assign_keeps_identity {E : Type} `{Orm.Entity E} : Prop :=
  forall (data : Orm.partial) (e : E),
    Orm.entity_id (Orm.assign data e) = Orm.entity_id e
    /\ Orm.is_deleted (Orm.assign data e) = Orm.is_deleted e.

Definition mark_deleted_deletes {E : Type} `{Orm.Entity E} : Prop :=
  forall e : E,
    Orm.is_deleted (Orm.mark_deleted e) = true
    /\ Orm.entity_id (Orm.mark_deleted e) = Orm.entity_id e.

(** [x] is the end of [l]. *)
Fixpoint ends_with (x l : string) : bool :=
  String.eqb x l
  || match l with
     | EmptyString => false
     | String _ l' => ends_with x l'
     end.

Definition piece_eqb (p q : Template.piece) : bool :=
  match p, q with
  | Template.Lit a, Template.Lit b => String.eqb a b
  | Template.V_base, Template.V_base => true
  | Template.V_name, Template.V_name => true
  | Template.V_Name, Template.V_Name => true
  | _, _ => false
  end.

(** The pieces [u] stand at the head of [t]; a literal that closes [u]
    need only begin the piece of [t] it meets. *)
Fixpoint match_rest (u t : Template.template) : bool :=
  match u with
  | [] => true
  | p :: u' =>
      match t with
      | [] => false
      | q :: t' =>
          match p, u' with
          | Template.Lit y, [] =>
              match q with
              | Template.Lit l => String.prefix y l
              | _ => false
              end
          | _, _ => piece_eqb p q && match_rest u' t'
          end
      end
  end.

(** Somewhere in [t] a literal ends in [x] and the pieces [u] follow. *)
Fixpoint occurs (x : string) (u t : Template.template) : bool :=
  match t with
  | [] => false
  | Template.Lit l :: t' =>
      (ends_with x l && match_rest u t') || occurs x u t'
  | _ :: t' => occurs x u t'
  end.

(** The route decorators of a controller template and their number. *)
Definition route_decorators (t : Template.template) : nat :=
  list_sum
    (map (fun needle =>
            list_sum (map (occurrences needle) (Template.literals t)))
         ["  @Post("; "  @Get("; "  @Put("; "  @Patch("; "  @Delete("]).

(** *** Relative imports of the generated files *)













(** *** The columns a template declares

    A column is declared by a decorator whose name ends in [Column],
    applied with [(], and the field on the line after it; the field's
    name runs up to [:] or [?]. *)
Inductive scan : Type :=
  | Seek
  | SkipLine
  | ReadName (acc : string).

Fixpoint columns_in (st : scan) (s : string) : list string :=
  match s with
  | EmptyString => []
  | String c s' =>
      match st with
      | Seek =>
          if String.prefix "Column(" s
          then columns_in SkipLine s'
          else columns_in Seek s'
      | SkipLine =>
          if Ascii.eqb c "010"%char
          then columns_in (ReadName "") s'
          else columns_in SkipLine s'
      | ReadName acc =>
          if Ascii.eqb c " "%char then columns_in (ReadName acc) s'
          else if Ascii.eqb c ":"%char || Ascii.eqb c "?"%char
               then acc :: columns_in Seek s'
               else columns_in (ReadName (acc +:+ String c "")) s'
      end
  end.

Definition declared_columns (t : Template.template) : list string :=
  concat (map (columns_in Seek) (Template.literals t)).

(** *** What a request asks for

    [value] is what [field || fallback] stands for: the field when it is a
    number other than 0, or a string other than the empty one; the
    fallback when the field is absent, 0 or empty. *)
Definition or_number (field : option Z) (fallback value : Z) : Prop :=
  (field = Some value /\ value ≠ 0)
  \/ ((field = None \/ field = Some 0) /\ value = fallback).

Definition or_string (field : option string) (fallback value : string)
  : Prop :=
  (field = Some value /\ value ≠ "")
  \/ ((field = None \/ field = Some "") /\ value = fallback).

(** The search term of a request: a string that is not empty. *)
Definition search_term (search : option string) : option string :=
  match search with
  | Some term => if String.eqb term "" then None else Some term
  | None => None
  end.

(** The where clause a search term calls for. *)
Definition clause_of (term : option string) : Orm.where_clause :=
  match term with
  | Some t => Orm.WhereILike "guestName" ("%" +:+ t +:+ "%")
  | None => Orm.WhereAll
  end.
(** * The model at work *)

Section Runs.

Import Sample.

Example capitalize_room : Generator.capitalize toUpperCase "room" = "Room".
Proof. reflexivity. Qed.

Example room_folders :
  Generator.folders (Generator.base_of path_join "room")
  = [ "src/core/room"; "src/core/room/domain"; "src/core/room/dto";
      "src/core/room/infrastructure/entities";
      "src/core/room/infrastructure/repositories";
      "src/core/room/infrastructure/providers";
      "src/core/room/mappers" ].
Proof. reflexivity. Qed.

Example room_providers_file :
  JsObject.get (Generator.files path_join toUpperCase "room")
    "src/core/room/infrastructure/providers/room.providers.ts"
  = Some "import { RoomRepository } from '../repositories/room.repository';
import { RoomRepositoryImpl } from '../repositories/room.repository.impl';

export const RoomProviders = [
  {
    provide: RoomRepository,
    useClass: RoomRepositoryImpl,
  },
];
".
Proof. reflexivity. Qed.

Example run_without_name :
  run ["node"; "generate-module.js"] empty_world
  = (1, Generator.World ∅ ∅
          [(Generator.Stderr, "❌ Module name required")] []).
Proof. reflexivity. Qed.

Example like_is_caseless : like "%LI%" "Alice" = true.
Proof. reflexivity. Qed.

Example like_needs_the_text : like "%li%" "Bob" = false.
Proof. reflexivity. Qed.

Example pages_of_25_by_10 : Math_ceil_div 25 10 = 3.
Proof. reflexivity. Qed.

Example pages_of_20_by_10 : Math_ceil_div 20 10 = 2.
Proof. reflexivity. Qed.

Example pages_of_none : Math_ceil_div 0 10 = 0.
Proof. reflexivity. Qed.

(** The second page of one row, oldest first: Bob, of two live guests. *)
Example second_page_of_guests :
  (Service.findAll second_page guests).1
  = Async.Ok (MkEnvelope [bob] (MkPaginate 2 1 1 2)).
Proof. reflexivity. Qed.

(** A page past the end is empty and the total stays. *)
Example page_past_the_end :
  (Service.findAll past_the_end guests).1
  = Async.Ok (MkEnvelope [] (MkPaginate 2 5 7 1)).
Proof. reflexivity. Qed.

(** A soft-deleted row is not found, and is still in the table. *)
Example deleted_guest_not_found :
  Service.findOne "Guest" "c3" guests
  = (Async.Err (Async.NotFoundException "Guest c3 not found"),
     Async.Db [alice; bob; carol] [Orm.FindOne (Orm.WhereId "c3")]).
Proof. reflexivity. Qed.

(** For a row that exists the service looks it up, then the adapter
    updates and looks it up again. *)
Example update_of_alice :
  Async.calls (Service.update "Guest" "a1" rename_eve guests).2
  = [ Orm.FindOne (Orm.WhereId "a1");
      Orm.Update "a1" rename_eve;
      Orm.FindOne (Orm.WhereId "a1") ].
Proof. reflexivity. Qed.

Example delete_of_alice :
  Async.calls (Service.delete "Guest" "a1" guests).2
  = [ Orm.FindOne (Orm.WhereId "a1"); Orm.SoftDelete "a1" ].
Proof. reflexivity. Qed.

(** An empty search term does not filter: the guest without a name, whom
    no pattern matches, is listed. *)
Example empty_search_lists_everyone :
  (RepositoryImpl.findWithFilter search_empty unnamed_guests).1
  = Async.Ok (Paginated [dave; alice] 2 10 0)
  /\ claimed_listing search_empty unnamed_guests
     = Async.Ok (Paginated [alice] 1 10 0).
Proof. split; reflexivity. Qed.

End Runs.

(** * Properties of the generator *)

Section StringFacts.

Lemma string_app_cons (c : ascii) (a b : string) :
  String c a +:+ b = String c (a +:+ b).
Proof. reflexivity. Qed.

Lemma string_app_nil (b : string) : "" +:+ b = b.
Proof. reflexivity. Qed.

Lemma string_length_app (a b : string) :
  String.length (a +:+ b) = (String.length a + String.length b)%nat.
Proof.
  induction a as [|c a IH]; [reflexivity|].
  rewrite string_app_cons. simpl. now rewrite IH.
Qed.

Lemma string_app_assoc (a b c : string) : (a +:+ b) +:+ c = a +:+ (b +:+ c).
Proof.
  induction a as [|x a IH]; [reflexivity|].
  rewrite !string_app_cons. now rewrite IH.
Qed.

Lemma string_app_empty_r (a : string) : a +:+ "" = a.
Proof.
  induction a as [|x a IH]; [reflexivity|].
  rewrite string_app_cons. now rewrite IH.
Qed.

Lemma string_eqb_eq (a b : string) : String.eqb a b = true <-> a = b.
Proof. apply String.eqb_eq. Qed.

Lemma string_eqb_ne (a b : string) : a ≠ b -> String.eqb a b = false.
Proof. intros Hne. now apply String.eqb_neq. Qed.

End StringFacts.

Section ObjectFacts.

Import JsObject.

Lemma set_fresh (k v : string) (o : obj) :
  k ∉ o.*1 -> set k v o = o ++ [(k, v)].
Proof.
  induction o as [|[k' v'] o IH]; simpl; intros Hk; [reflexivity|].
  apply not_elem_of_cons in Hk as [Hne Hk].
  rewrite (string_eqb_ne _ _ Hne). now rewrite IH.
Qed.

Lemma literal_from (acc props : list (string * string)) :
  NoDup (acc.*1 ++ props.*1) ->
  foldl (fun o kv => set kv.1 kv.2 o) acc props = acc ++ props.
Proof.
  revert acc. induction props as [|[k v] props IH]; intros acc Hnd; simpl.
  - now rewrite app_nil_r.
  - rewrite set_fresh.
    + rewrite IH.
      * now rewrite <- app_assoc.
      * rewrite fmap_app. simpl. rewrite <- app_assoc. exact Hnd.
    + simpl in Hnd. apply NoDup_app in Hnd as (_ & Hdisj & _).
      intros Hin. apply (Hdisj k Hin). left.
Qed.

(** With pairwise distinct keys, the object holds exactly the properties
    written in the literal, in that order. *)
Lemma literal_distinct (props : list (string * string)) :
  NoDup props.*1 -> literal props = props.
Proof. intros Hnd. unfold literal. now rewrite literal_from. Qed.

Lemma get_of_member (o : obj) (k v : string) :
  NoDup o.*1 -> (k, v) ∈ o -> get o k = Some v.
Proof.
  induction o as [|[k' v'] o IH]; intros Hnd Hin.
  - inversion Hin.
  - simpl in Hnd. apply NoDup_cons in Hnd as [Hk' Hnd].
    apply elem_of_cons in Hin as [Heq | Hin]; simpl.
    + inversion Heq; subst. now rewrite String.eqb_refl.
    + destruct (String.eqb k k') eqn:Hkk.
      * apply String.eqb_eq in Hkk. subst k'.
        exfalso. apply Hk'. apply list_elem_of_fmap. now exists (k, v).
      * now apply IH.
Qed.

Lemma get_absent (o : obj) (k : string) : k ∉ o.*1 -> get o k = None.
Proof.
  induction o as [|[k' v'] o IH]; simpl; intros Hk; [reflexivity|].
  apply not_elem_of_cons in Hk as [Hne Hk].
  rewrite (string_eqb_ne _ _ Hne). now apply IH.
Qed.

End ObjectFacts.

(** Two designated paths differ either in length or, behind the common
    base, at a character of their literal parts. *)
Ltac paths_differ :=
  let H := fresh "Heq" in
  intros H;
  first
    [ apply (f_equal String.length) in H;
      rewrite !string_length_app in H; simpl in H; lia
    | apply String.app_inj in H;
      rewrite !string_app_cons, ?string_app_nil in H;
      discriminate H ].

Lemma designated_paths_distinct (base name : string) :
  NoDup (designated_paths base name).
Proof.
  unfold designated_paths.
  repeat (apply NoDup_cons; split;
          [ rewrite ?not_elem_of_cons; repeat split;
            try apply not_elem_of_nil; paths_differ | ]).
  apply NoDup_nil_2.
Qed.

Section GeneratorFacts.

Import Template Generator.

Variable path_join : list string -> string.
Variable toUpperCase : string -> string.

#[local] Abbreviation props := (props path_join toUpperCase).
#[local] Abbreviation files := (files path_join toUpperCase).
#[local] Abbreviation main := (main path_join toUpperCase).
#[local] Abbreviation base_of := (base_of path_join).

Lemma props_keys (name : string) :
  (props name).*1 = designated_paths (base_of name) name.
Proof.
  unfold Generator.props, entries, designated_paths. simpl.
  now rewrite !string_app_empty_r.
Qed.

Lemma props_keys_distinct (name : string) : NoDup (props name).*1.
Proof. rewrite props_keys. apply designated_paths_distinct. Qed.

(** No two properties of the [files] literal collide, whatever the name. *)
Lemma files_are_props (name : string) : files name = props name.
Proof. apply literal_distinct, props_keys_distinct. Qed.

Lemma foldl_mkdir_calls (dirs : list string) (w : world) :
  fs_calls (foldl (fun w dir => mkdirSync dir w) w dirs)
  = fs_calls w ++ map MkdirSync dirs.
Proof.
  revert w. induction dirs as [|d dirs IH]; intros w; simpl.
  - now rewrite app_nil_r.
  - rewrite IH. simpl. now rewrite <- app_assoc.
Qed.

Lemma foldl_mkdir_files (dirs : list string) (w : world) :
  fs_files (foldl (fun w dir => mkdirSync dir w) w dirs) = fs_files w.
Proof.
  revert w. induction dirs as [|d dirs IH]; intros w; simpl; [reflexivity|].
  now rewrite IH.
Qed.


(** The write loop over the keys of [o], for a tail [l] of its entries. *)
Lemma write_loop (o : JsObject.obj) (l : list (string * string)) (w : world) :
  (forall kv, kv ∈ l -> JsObject.get o kv.1 = Some kv.2) ->
  forall w', w' = foldl (fun w file =>
                     match JsObject.get o file with
                     | Some content => writeFileSync file content w
                     | None => w
                     end) w l.*1 ->
  fs_calls w' = fs_calls w ++ map (fun kv => WriteFileSync kv.1 kv.2) l
  /\ fs_files w' = foldl (fun m kv => <[ kv.1 := kv.2 ]> m) (fs_files w) l
  /\ fs_dirs w' = fs_dirs w
  /\ console w' = console w.
Proof.
  revert w. induction l as [|[k v] l IH]; intros w Hget w' ->.
  - simpl. now rewrite app_nil_r.
  - pose proof (Hget (k, v) ltac:(left)) as Hk. simpl in Hk.
    cbn [fmap list_fmap foldl fst]. rewrite Hk.
    edestruct (IH (writeFileSync k v w)) as (Hc & Hf & Hd & Ho);
      [ intros kv Hin; apply Hget; now right | reflexivity | ].
    rewrite Hc, Hf, Hd, Ho. simpl. now rewrite <- app_assoc.
Qed.

Lemma write_all_spec (o : JsObject.obj) (w : world) :
  NoDup o.*1 ->
  fs_calls (write_all o w)
  = fs_calls w ++ map (fun kv => WriteFileSync kv.1 kv.2) o
  /\ fs_files (write_all o w)
     = foldl (fun m kv => <[ kv.1 := kv.2 ]> m) (fs_files w) o
  /\ fs_dirs (write_all o w) = fs_dirs w
  /\ console (write_all o w) = console w.
Proof.
  intros Hnd. unfold write_all, JsObject.keys.
  apply (write_loop o o w); [|reflexivity].
  intros [k v] Hin. now apply get_of_member.
Qed.

Lemma report_keeps_files (name : string) (w : world) :
  fs_calls (report name w) = fs_calls w
  /\ fs_files (report name w) = fs_files w
  /\ fs_dirs (report name w) = fs_dirs w.
Proof. now unfold report. Qed.

Lemma main_rejects (argv : list string) (w : world) :
  not_name (argv !! 2%nat) = true ->
  main argv w = (1, console_error "❌ Module name required" w).
Proof. intros Hn. unfold Generator.main. now rewrite Hn. Qed.

Lemma main_generates (argv : list string) (name : string) (w : world) :
  argv !! 2%nat = Some name -> name ≠ "" ->
  main argv w
  = (0, report name
          (write_all (files name)
             (foldl (fun w dir => mkdirSync dir w) w (folders (base_of name))))).
Proof.
  intros Harg Hne. unfold Generator.main. rewrite Harg. simpl.
  now rewrite (string_eqb_ne _ _ Hne).
Qed.

Lemma main_calls (argv : list string) (name : string) (w : world) :
  argv !! 2%nat = Some name -> name ≠ "" ->
  fs_calls (main argv w).2
  = fs_calls w ++ generated_calls path_join toUpperCase name.
Proof.
  intros Harg Hne. rewrite (main_generates _ _ _ Harg Hne). cbn [snd].
  set (w0 := foldl (fun w dir => mkdirSync dir w) w (folders (base_of name))).
  destruct (report_keeps_files name (write_all (files name) w0)) as (-> & _).
  destruct (write_all_spec (files name) w0) as (-> & _).
  { rewrite files_are_props. apply props_keys_distinct. }
  subst w0. rewrite foldl_mkdir_calls, files_are_props.
  unfold generated_calls. now rewrite <- app_assoc.
Qed.

Lemma foldl_insert_union (o : list (string * string)) (m : gmap string string) :
  foldl (fun m kv => <[ kv.1 := kv.2 ]> m) m o
  = foldl (fun m kv => <[ kv.1 := kv.2 ]> m) ∅ o ∪ m.
Proof.
  revert m. induction o as [|[k v] o IH]; intros m; simpl.
  - now rewrite (left_id_L ∅ (∪)).
  - rewrite IH, (IH (<[k:=v]> ∅)).
    rewrite (insert_union_singleton_l m), (insert_union_singleton_l ∅).
    rewrite (right_id_L ∅ (∪)). now rewrite (assoc_L (∪)).
Qed.

Lemma written_generated (dirs : list string) (o : list (string * string)) :
  written (map MkdirSync dirs ++ map (fun kv => WriteFileSync kv.1 kv.2) o)
  = foldl (fun m kv => <[ kv.1 := kv.2 ]> m) ∅ o.
Proof.
  unfold written. rewrite foldl_app.
  assert (Hdirs : forall m : gmap string string,
             foldl (fun m op =>
                      match op with
                      | WriteFileSync path content => <[ path := content ]> m
                      | MkdirSync _ => m
                      end) m (map MkdirSync dirs) = m).
  { induction dirs as [|d dirs IH]; intros m; simpl; [reflexivity | apply IH]. }
  rewrite Hdirs. generalize (∅ : gmap string string).
  induction o as [|[k v] o IH]; intros m; simpl; [reflexivity | apply IH].
Qed.

Lemma dom_foldl_insert (o : list (string * string)) (m : gmap string string) :
  dom (foldl (fun m kv => <[ kv.1 := kv.2 ]> m) m o)
  = list_to_set o.*1 ∪ dom m.
Proof.
  revert m. induction o as [|[k v] o IH]; intros m; simpl.
  - now rewrite (left_id_L ∅ (∪)).
  - rewrite IH, dom_insert_L. simpl. now rewrite (assoc_L (∪)), (comm_L (∪) _ {[k]}).
Qed.

Lemma main_files (argv : list string) (name : string) (w : world) :
  argv !! 2%nat = Some name -> name ≠ "" ->
  fs_files (main argv w).2
  = written (generated_calls path_join toUpperCase name) ∪ fs_files w.
Proof.
  intros Harg Hne. rewrite (main_generates _ _ _ Harg Hne). cbn [snd].
  set (w0 := foldl (fun w dir => mkdirSync dir w) w (folders (base_of name))).
  destruct (report_keeps_files name (write_all (files name) w0)) as (_ & -> & _).
  destruct (write_all_spec (files name) w0) as (_ & -> & _).
  { rewrite files_are_props. apply props_keys_distinct. }
  subst w0. rewrite foldl_mkdir_files, files_are_props.
  unfold generated_calls. rewrite written_generated.
  apply foldl_insert_union.
Qed.

Lemma written_paths (name : string) :
  dom (written (generated_calls path_join toUpperCase name))
  = list_to_set (designated_paths (base_of name) name).
Proof.
  unfold generated_calls. rewrite written_generated, dom_foldl_insert.
  rewrite props_keys, dom_empty_L. now rewrite (right_id_L ∅ (∪)).
Qed.

End GeneratorFacts.

Section LayoutFacts.

Import Generator.

Lemma no_slash_app (a b : string) :
  no_slash (a +:+ b) = no_slash a && no_slash b.
Proof.
  induction a as [|c a IH]; [reflexivity|].
  rewrite string_app_cons. simpl. rewrite IH. now rewrite andb_assoc.
Qed.

(** A designated path is a created folder, a separator and a file name. *)
Lemma designated_path_in_folder (base name path : string) :
  no_slash name = true ->
  path ∈ designated_paths base name ->
  exists dir leaf,
    path = dir +:+ "/" +:+ leaf
    /\ no_slash leaf = true
    /\ dir ∈ folders base.
Proof.
  intros Hname Hin. unfold designated_paths in Hin.
  assert (Hleaf : forall a b : string,
             no_slash a = true -> no_slash b = true ->
             no_slash (a +:+ name +:+ b) = true).
  { intros a b Ha Hb. now rewrite !no_slash_app, Ha, Hname, Hb. }
  unfold folders.
  repeat (apply elem_of_cons in Hin as [-> | Hin]);
    [ exists (base +:+ "/domain"), (name +:+ ".domain.ts")
    | exists (base +:+ "/dto"), ("create-" +:+ name +:+ ".dto.ts")
    | exists (base +:+ "/dto"), ("update-" +:+ name +:+ ".dto.ts")
    | exists (base +:+ "/dto"), ("filter-" +:+ name +:+ ".dto.ts")
    | exists (base +:+ "/infrastructure/entities"), (name +:+ ".entity.ts")
    | exists (base +:+ "/infrastructure/repositories"),
        (name +:+ ".repository.ts")
    | exists (base +:+ "/infrastructure/repositories"),
        (name +:+ ".repository.impl.ts")
    | exists (base +:+ "/mappers"), (name +:+ ".mapper.ts")
    | exists (base +:+ "/infrastructure/providers"),
        (name +:+ ".providers.ts")
    | exists base, (name +:+ ".service.ts")
    | exists base, (name +:+ ".controller.ts")
    | exists base, (name +:+ ".module.ts")
    | inversion Hin ];
    (split;
     [ rewrite ?string_app_assoc; reflexivity
     | split;
       [ first [ apply (Hleaf ""); reflexivity | apply Hleaf; reflexivity ]
       | set_solver ] ]).
Qed.

Lemma designated_path_under_base (base name path : string) :
  path ∈ designated_paths base name ->
  exists rest, path = base +:+ "/" +:+ rest.
Proof.
  intros Hin. unfold designated_paths in Hin.
  repeat (apply elem_of_cons in Hin as [-> | Hin]);
    try (eexists; rewrite ?string_app_cons, ?string_app_nil; reflexivity).
  inversion Hin.
Qed.

Lemma folder_under_base (base dir : string) :
  dir ∈ folders base -> exists rest, dir = base +:+ rest.
Proof.
  intros Hin. unfold folders in Hin.
  repeat (apply elem_of_cons in Hin as [-> | Hin]);
    try (eexists; reflexivity).
  - exists "". now rewrite string_app_empty_r.
  - inversion Hin.
Qed.

(** Up to the first separator two paths without a separator in their
    heads agree only when the heads are the same. *)
Lemma head_before_slash (n1 n2 r1 r2 : string) :
  no_slash n1 = true -> no_slash n2 = true ->
  n1 +:+ "/" +:+ r1 = n2 +:+ "/" +:+ r2 -> n1 = n2.
Proof.
  revert n2. induction n1 as [|c n1 IH]; intros [|c' n2] H1 H2 Heq.
  - reflexivity.
  - rewrite string_app_nil, !string_app_cons in Heq.
    inversion Heq; subst. simpl in H2. discriminate.
  - rewrite string_app_nil, !string_app_cons in Heq.
    inversion Heq; subst. simpl in H1. discriminate.
  - rewrite !string_app_cons in Heq. inversion Heq; subst.
    simpl in H1, H2. apply andb_true_iff in H1 as [_ H1].
    apply andb_true_iff in H2 as [_ H2].
    f_equal. now apply IH.
Qed.

End LayoutFacts.

Section DirectoryFacts.

Import Generator.

Variable path_join : list string -> string.
Variable toUpperCase : string -> string.

Lemma foldl_mkdir_dirs (dirs : list string) (w : world) :
  fs_dirs (foldl (fun w dir => mkdirSync dir w) w dirs)
  = list_to_set (dirs ≫= with_ancestors) ∪ fs_dirs w.
Proof.
  revert w. induction dirs as [|d dirs IH]; intros w; cbn [foldl].
  - change ([] ≫= with_ancestors) with (@nil string).
    cbn [list_to_set foldr]. now rewrite (left_id_L ∅ (∪)).
  - rewrite IH. cbn [mkdirSync fs_dirs].
    change ((d :: dirs) ≫= with_ancestors)
      with (with_ancestors d ++ (dirs ≫= with_ancestors)).
    rewrite list_to_set_app_L.
    now rewrite (assoc_L (∪)),
      (comm_L (∪) (list_to_set (dirs ≫= with_ancestors))).
Qed.

Lemma main_dirs (argv : list string) (name : string) (w : world) :
  argv !! 2%nat = Some name -> name ≠ "" ->
  fs_dirs (main path_join toUpperCase argv w).2
  = list_to_set (folders (base_of path_join name) ≫= with_ancestors)
    ∪ fs_dirs w.
Proof.
  intros Harg Hne.
  rewrite (main_generates path_join toUpperCase _ _ _ Harg Hne). cbn [snd].
  set (w0 := foldl (fun w dir => mkdirSync dir w) w
               (folders (base_of path_join name))).
  destruct (report_keeps_files name
              (write_all (files path_join toUpperCase name) w0))
    as (_ & _ & ->).
  destruct (write_all_spec (files path_join toUpperCase name) w0)
    as (_ & _ & -> & _).
  { rewrite files_are_props. apply props_keys_distinct. }
  subst w0. apply foldl_mkdir_dirs.
Qed.

(** Every directory asked for is among those made. *)
Lemma folder_is_created (dirs : list string) (dir : string) :
  dir ∈ dirs ->
  dir ∈ (list_to_set (dirs ≫= with_ancestors) : gset string).
Proof.
  intros Hin. apply elem_of_list_to_set, list_elem_of_bind.
  exists dir. split; [|exact Hin].
  unfold with_ancestors. apply elem_of_app. right. left.
Qed.

End DirectoryFacts.

(** ** The argument guard *)

(** C6.  When the name argument is missing or empty, the run prints the
    error on the error stream, ends with status 1, and has made no
    filesystem call: neither the directories nor the files on disk change. *)
Theorem missing_name_aborts (path_join : list string -> string)
    (toUpperCase : string -> string) (argv : list string)
    (w : Generator.world) :
  argv !! 2%nat = None \/ argv !! 2%nat = Some "" ->
  let r := Generator.main path_join toUpperCase argv w in
  r.1 = 1
  /\ r.1 ≠ 0
  /\ Generator.console r.2
     = Generator.console w ++ [(Generator.Stderr, "❌ Module name required")]
  /\ Generator.fs_calls r.2 = Generator.fs_calls w
  /\ Generator.fs_dirs r.2 = Generator.fs_dirs w
  /\ Generator.fs_files r.2 = Generator.fs_files w.
Proof.
  intros Harg r. subst r.
  rewrite main_rejects by (destruct Harg as [-> | ->]; reflexivity).
  simpl. repeat split. discriminate.
Qed.

Lemma missing_name_aborts_witness :
  (["node"; "generate-module.js"] : list string) !! 2%nat = None
  /\ (Sample.run ["node"; "generate-module.js"] Sample.empty_world).1 = 1
  /\ Generator.fs_calls
       (Sample.run ["node"; "generate-module.js"] Sample.empty_world).2 = [].
Proof.
  split; [reflexivity|].
  destruct (missing_name_aborts Sample.path_join Sample.toUpperCase
              ["node"; "generate-module.js"] Sample.empty_world
              (or_introl eq_refl)) as (H1 & _ & _ & H4 & _).
  split; [exact H1 | exact H4].
Defined.

(** ** The generated file set *)

(** C7.  For a non-empty name the filesystem calls of a run, and so the
    paths and contents it writes, are [generated_calls] of the name: two
    runs with the same name, from any two worlds, make the same calls and
    leave the same content at every generated path; running again changes
    no file. *)
Theorem generation_is_function_of_name (path_join : list string -> string)
    (toUpperCase : string -> string) (name : string)
    (argv1 argv2 : list string) (w1 w2 : Generator.world) :
  name ≠ "" ->
  argv1 !! 2%nat = Some name ->
  argv2 !! 2%nat = Some name ->
  let ops := generated_calls path_join toUpperCase name in
  let r1 := Generator.main path_join toUpperCase argv1 w1 in
  let r2 := Generator.main path_join toUpperCase argv2 w2 in
  r1.1 = 0 /\ r2.1 = 0
  /\ Generator.fs_calls r1.2 = Generator.fs_calls w1 ++ ops
  /\ Generator.fs_calls r2.2 = Generator.fs_calls w2 ++ ops
  /\ Generator.fs_files r1.2 = written ops ∪ Generator.fs_files w1
  /\ Generator.fs_files r2.2 = written ops ∪ Generator.fs_files w2
  /\ dom (written ops)
     = list_to_set
         (designated_paths (Generator.base_of path_join name) name)
  /\ (forall path, path ∈ dom (written ops) ->
        Generator.fs_files r1.2 !! path = Generator.fs_files r2.2 !! path)
  /\ Generator.fs_files
       (Generator.main path_join toUpperCase argv1 r1.2).2
     = Generator.fs_files r1.2.
Proof.
  intros Hne Harg1 Harg2 ops r1 r2. subst ops r1 r2.
  rewrite !(main_files path_join toUpperCase _ name) by assumption.
  rewrite !(main_calls path_join toUpperCase _ name) by assumption.
  rewrite !(main_generates path_join toUpperCase _ name) by assumption.
  cbn [fst]. repeat split.
  - apply written_paths.
  - intros path Hin. apply elem_of_dom in Hin as [c Hc].
    rewrite !lookup_union, Hc.
    now destruct (Generator.fs_files w1 !! path), (Generator.fs_files w2 !! path).
  - rewrite (assoc_L (∪)). now rewrite (idemp_L (∪)).
Qed.

Lemma generation_is_function_of_name_witness :
  "room" ≠ ""
  /\ Sample.room_argv !! 2%nat = Some "room"
  /\ Generator.fs_calls (Sample.run Sample.room_argv Sample.empty_world).2
     = Generator.fs_calls (Sample.run Sample.room_argv Sample.stale_world).2
  /\ Generator.fs_files (Sample.run Sample.room_argv Sample.empty_world).2
       !! "src/core/room/room.module.ts"
     = Generator.fs_files (Sample.run Sample.room_argv Sample.stale_world).2
       !! "src/core/room/room.module.ts".
Proof.
  split; [discriminate|]. split; [reflexivity|].
  destruct (generation_is_function_of_name
              Sample.path_join Sample.toUpperCase "room"
              Sample.room_argv Sample.room_argv
              Sample.empty_world Sample.stale_world
              ltac:(discriminate) eq_refl eq_refl)
    as (_ & _ & Hc1 & Hc2 & _ & _ & Hdom & Hsame & _).
  split.
  - unfold Sample.run. rewrite Hc1, Hc2. reflexivity.
  - apply Hsame. rewrite Hdom. apply elem_of_list_to_set.
    apply list_elem_of_In. do 11 right. left. reflexivity.
Defined.

(** C2 as stated fails: a run for [room] writes twelve files, not eleven. *)
Lemma room_run_does_not_write_eleven :
  ~ length (List.filter is_write
              (Generator.fs_calls
                 (Sample.run Sample.room_argv Sample.empty_world).2))
    = 11%nat.
Proof. vm_compute. discriminate. Qed.

(** C2, amended.  For every non-empty name without a path separator the
    [files] object has one property for each of the twelve templates: key
    and content are the key template and the text template with the name
    variants substituted, the keys are the twelve designated paths,
    pairwise distinct, each a folder the run creates, a separator and a
    file name, and the run writes exactly these twelve files, in this
    order. *)
Theorem generator_writes_twelve_files (path_join : list string -> string)
    (toUpperCase : string -> string) (name : string) (argv : list string)
    (w : Generator.world) :
  argv !! 2%nat = Some name ->
  name ≠ "" ->
  no_slash name = true ->
  let v := Generator.variants_of path_join toUpperCase name in
  let fl := Generator.files path_join toUpperCase name in
  fl = map (fun e => (Template.render v e.1, Template.render v e.2))
           Template.entries
  /\ length fl = 12%nat
  /\ JsObject.keys fl
     = designated_paths (Generator.base_of path_join name) name
  /\ NoDup (JsObject.keys fl)
  /\ (forall path, path ∈ JsObject.keys fl ->
        exists dir leaf,
          path = dir +:+ "/" +:+ leaf
          /\ no_slash leaf = true
          /\ dir ∈ Generator.folders (Generator.base_of path_join name)
          /\ dir ∈ Generator.fs_dirs
                     (Generator.main path_join toUpperCase argv w).2)
  /\ List.filter is_write
       (Generator.fs_calls (Generator.main path_join toUpperCase argv w).2)
     = List.filter is_write (Generator.fs_calls w)
       ++ map (fun kv => Generator.WriteFileSync kv.1 kv.2) fl.
Proof.
  intros Harg Hne Hslash v fl. subst v fl.
  rewrite (main_calls path_join toUpperCase _ name) by assumption.
  rewrite (main_dirs path_join toUpperCase _ name) by assumption.
  rewrite files_are_props. unfold JsObject.keys.
  split; [reflexivity|]. split; [reflexivity|].
  split; [apply props_keys|]. split; [apply props_keys_distinct|].
  split.
  - intros path Hin. rewrite props_keys in Hin.
    destruct (designated_path_in_folder _ _ _ Hslash Hin)
      as (dir & leaf & Hp & Hl & Hd).
    exists dir, leaf. split; [exact Hp|]. split; [exact Hl|].
    split; [exact Hd|]. apply elem_of_union. left.
    now apply folder_is_created.
  - unfold generated_calls. rewrite !List.filter_app. f_equal.
Qed.

Lemma generator_writes_twelve_files_witness :
  Sample.room_argv !! 2%nat = Some "room"
  /\ "room" ≠ ""
  /\ no_slash "room" = true
  /\ JsObject.keys (Generator.files Sample.path_join Sample.toUpperCase "room")
     = designated_paths "src/core/room" "room".
Proof.
  split; [reflexivity|]. split; [discriminate|]. split; [reflexivity|].
  destruct (generator_writes_twelve_files
              Sample.path_join Sample.toUpperCase "room"
              Sample.room_argv Sample.empty_world
              eq_refl ltac:(discriminate) eq_refl)
    as (_ & _ & Hkeys & _).
  exact Hkeys.
Defined.

(** * Properties of the generated classes *)

Section CeilingFacts.

Lemma number_or_nonzero (value : option Z) (fallback : Z) :
  fallback ≠ 0 -> Params.number_or value fallback ≠ 0.
Proof.
  intros Hf. unfold Params.number_or, Params.truthy_number.
  destruct value as [n|]; [|exact Hf].
  destruct (Z.eqb_spec n 0); simpl; assumption.
Qed.

(** The adapter never hands the service a zero limit. *)
Lemma number_or_limit_nonzero (value : option Z) :
  Params.number_or value 10 ≠ 0.
Proof. now apply number_or_nonzero. Qed.

Lemma Math_ceil_div_is_ceiling (total limit : Z) :
  1 <= limit ->
  is_ceiling_of_quotient total limit (Math_ceil_div total limit).
Proof.
  intros Hl. unfold is_ceiling_of_quotient, Math_ceil_div.
  set (q := Qdiv (inject_Z total) (inject_Z limit)).
  assert (Hpos : (0 < inject_Z limit)%Q).
  { change (inject_Z 0 < inject_Z limit)%Q. rewrite <- Zlt_Qlt. lia. }
  assert (Hq : Qeq (q * inject_Z limit) (inject_Z total)).
  { unfold q. rewrite Qmult_comm. apply Qmult_div_r.
    intros Hz. rewrite Hz in Hpos. now apply Qlt_irrefl in Hpos. }
  split.
  - rewrite Zlt_Qlt, inject_Z_mult, <- Hq.
    apply Qmult_lt_compat_r; [exact Hpos | apply Qceiling_lt].
  - rewrite Zle_Qle, inject_Z_mult, <- Hq.
    apply Qmult_le_compat_r; [apply Qle_ceiling | now apply Qlt_le_weak].
Qed.

(** The ceiling is the only integer in that position, and it is the usual
    integer formula. *)
Lemma ceiling_of_quotient_unique (total limit p1 p2 : Z) :
  1 <= limit ->
  is_ceiling_of_quotient total limit p1 ->
  is_ceiling_of_quotient total limit p2 ->
  p1 = p2.
Proof. unfold is_ceiling_of_quotient. intros Hl [H1 H2] [H3 H4]. nia. Qed.

Lemma Math_ceil_div_formula (total limit : Z) :
  1 <= limit ->
  Math_ceil_div total limit = (total + limit - 1) / limit.
Proof.
  intros Hl.
  apply (ceiling_of_quotient_unique total limit); [exact Hl | | ].
  - now apply Math_ceil_div_is_ceiling.
  - unfold is_ceiling_of_quotient.
    pose proof (Z.div_mod (total + limit - 1) limit ltac:(lia)) as Hdm.
    pose proof (Z.mod_pos_bound (total + limit - 1) limit ltac:(lia)) as Hb.
    nia.
Qed.

End CeilingFacts.

Section AdapterFacts.

Import Orm Async.

Context {E : Type} `{Entity E}.

Lemma findAll_run (p : Params.t) (d : db E) :
  RepositoryImpl.findAll p d
  = (Ok (Paginated (findAndCount (options_of WhereAll p) (table d)).1
                   (findAndCount (options_of WhereAll p) (table d)).2
                   (Params.number_or (Params.limit p) 10)
                   (Params.number_or (Params.offset p) 0)),
     record (FindAndCount (options_of WhereAll p)) d).
Proof. reflexivity. Qed.

Lemma findWithFilter_run (p : Params.t) (d : db E) :
  let o := options_of (RepositoryImpl.where_of (Params.search p)) p in
  RepositoryImpl.findWithFilter p d
  = (Ok (Paginated (findAndCount o (table d)).1
                   (findAndCount o (table d)).2
                   (Params.number_or (Params.limit p) 10)
                   (Params.number_or (Params.offset p) 0)),
     record (FindAndCount o) d).
Proof. reflexivity. Qed.

Lemma service_findAll_run (p : Params.t) (d : db E) (r : PaginatedResult E)
    (d' : db E) :
  RepositoryImpl.findAll p d = (Ok r, d') ->
  Service.findAll p d = (Ok (Service.envelope r), d').
Proof.
  intros Hr. unfold Service.findAll, mbind, promise_bind, await.
  now rewrite Hr.
Qed.

Lemma service_findWithFilter_run (p : Params.t) (d : db E)
    (r : PaginatedResult E) (d' : db E) :
  RepositoryImpl.findWithFilter p d = (Ok r, d') ->
  Service.findWithFilter p d = (Ok (Service.envelope r), d').
Proof.
  intros Hr. unfold Service.findWithFilter, mbind, promise_bind, await.
  now rewrite Hr.
Qed.

Lemma findAndCount_total_nonneg (o : FindManyOptions) (rows : list E) :
  0 <= (findAndCount o rows).2.
Proof. unfold findAndCount. simpl. lia. Qed.

Lemma findAndCount_length (o : FindManyOptions) (rows : list E) :
  0 <= fo_take o ->
  Z.of_nat (length (findAndCount o rows).1) <= fo_take o.
Proof.
  intros Ht. unfold findAndCount. cbn [fst].
  rewrite length_take. lia.
Qed.

Lemma filter_andb (f g : E -> bool) (rows : list E) :
  List.filter (fun e => f e && g e) rows = List.filter g (List.filter f rows).
Proof.
  induction rows as [|e rows IH]; simpl; [reflexivity|].
  destruct (f e); simpl; [destruct (g e)|]; now rewrite IH.
Qed.

Lemma matching_all (rows : list E) :
  matching WhereAll rows = List.filter (fun e => negb (is_deleted e)) rows.
Proof.
  unfold matching. apply List.filter_ext. intros e. simpl.
  now rewrite andb_true_r.
Qed.

Lemma matching_ilike (term : string) (rows : list E) :
  matching (WhereILike "guestName" ("%" +:+ term +:+ "%")) rows
  = List.filter (partial_match term)
      (List.filter (fun e => negb (is_deleted e)) rows).
Proof.
  unfold matching.
  rewrite (filter_andb (fun e => negb (is_deleted e))
             (satisfies (WhereILike "guestName" ("%" +:+ term +:+ "%")))).
  apply List.filter_ext. intros e. reflexivity.
Qed.

(** The ORM call of the adapter is the listing algorithm of the
    specification, the search term being the non-empty one. *)
Lemma findAndCount_is_listing (search : option string) (p : Params.t)
    (rows : list E) :
  findAndCount (options_of (RepositoryImpl.where_of search) p) rows
  = listing (effective_search search)
      (Params.string_or (Params.sort p) "createdAt")
      (Params.string_or (Params.order p) "DESC")
      (Params.number_or (Params.offset p) 0)
      (Params.number_or (Params.limit p) 10) rows.
Proof.
  unfold findAndCount, listing, RepositoryImpl.where_of, effective_search.
  destruct search as [s|]; [destruct (Params.truthy_string s)|];
    cbn [options_of fo_where fo_take fo_skip fo_order fst snd];
    now rewrite ?matching_all, ?matching_ilike.
Qed.

Lemma findOne_after_absent_update (id : string) (data : partial)
    (rows : list E) :
  (forall e, e ∈ rows -> entity_id e ≠ id) ->
  update id data rows = rows /\ findOne (WhereId id) rows = None.
Proof.
  intros Habs. split.
  - unfold update. induction rows as [|e rows IH]; simpl; [reflexivity|].
    rewrite (string_eqb_ne _ _ (Habs e ltac:(left))).
    rewrite IH; [reflexivity|]. intros e' He'. apply Habs. now right.
  - unfold findOne, matching.
    induction rows as [|e rows IH]; simpl; [reflexivity|].
    rewrite (string_eqb_ne _ _ (Habs e ltac:(left))), andb_false_r.
    apply IH. intros e' He'. apply Habs. now right.
Qed.

Lemma adapter_update_miss (id : string) (data : partial) (d : db E) :
  findOne (WhereId id) (update id data (table d)) = None ->
  RepositoryImpl.update id data d
  = (Err (Error ("Entity " +:+ id +:+ " not found")),
     {| table := update id data (table d);
        calls := calls d ++ [Update id data; FindOne (WhereId id)] |}).
Proof.
  intros Hmiss. unfold RepositoryImpl.update, RepositoryImpl.findById.
  unfold mbind, promise_bind, await, repo_update, repo_findOne, record.
  cbn [table calls]. rewrite Hmiss. unfold throw.
  now rewrite <- app_assoc.
Qed.

Lemma adapter_update_hit (id : string) (data : partial) (d : db E) (e : E) :
  findOne (WhereId id) (update id data (table d)) = Some e ->
  RepositoryImpl.update id data d
  = (Ok e,
     {| table := update id data (table d);
        calls := calls d ++ [Update id data; FindOne (WhereId id)] |}).
Proof.
  intros Hhit. unfold RepositoryImpl.update, RepositoryImpl.findById.
  unfold mbind, promise_bind, await, repo_update, repo_findOne, record.
  cbn [table calls]. rewrite Hhit. unfold resolve.
  now rewrite <- app_assoc.
Qed.

Variable Name : string.

Lemma service_findOne_miss (id : string) (d : db E) :
  findOne (WhereId id) (table d) = None ->
  Service.findOne Name id d
  = (Err (NotFoundException (Name +:+ " " +:+ id +:+ " not found")),
     record (FindOne (WhereId id)) d).
Proof.
  intros Hmiss. unfold Service.findOne, RepositoryImpl.findById.
  unfold mbind, promise_bind, await, repo_findOne. now rewrite Hmiss.
Qed.

Lemma service_findOne_hit (id : string) (d : db E) (e : E) :
  findOne (WhereId id) (table d) = Some e ->
  Service.findOne Name id d = (Ok e, record (FindOne (WhereId id)) d).
Proof.
  intros Hhit. unfold Service.findOne, RepositoryImpl.findById.
  unfold mbind, promise_bind, await, repo_findOne. now rewrite Hhit.
Qed.

Lemma service_update_miss (id : string) (data : partial) (d : db E) :
  findOne (WhereId id) (table d) = None ->
  Service.update Name id data d
  = (Err (NotFoundException (Name +:+ " " +:+ id +:+ " not found")),
     record (FindOne (WhereId id)) d).
Proof.
  intros Hmiss. unfold Service.update.
  unfold mbind, promise_bind, await. now rewrite service_findOne_miss.
Qed.

Lemma service_delete_miss (id : string) (d : db E) :
  findOne (WhereId id) (table d) = None ->
  Service.delete Name id d
  = (Err (NotFoundException (Name +:+ " " +:+ id +:+ " not found")),
     record (FindOne (WhereId id)) d).
Proof.
  intros Hmiss. unfold Service.delete.
  unfold mbind, promise_bind, await. now rewrite service_findOne_miss.
Qed.

(** When the row exists the service does delegate: the mutation is made
    after the lookup. *)
Lemma service_update_hit (id : string) (data : partial) (d : db E) (e : E) :
  findOne (WhereId id) (table d) = Some e ->
  Service.update Name id data d
  = RepositoryImpl.update id data (record (FindOne (WhereId id)) d).
Proof.
  intros Hhit. unfold Service.update.
  unfold mbind, promise_bind, await at 1. now rewrite (service_findOne_hit _ _ e).
Qed.

Lemma service_delete_hit (id : string) (d : db E) (e : E) :
  findOne (WhereId id) (table d) = Some e ->
  Service.delete Name id d
  = (Ok tt,
     {| table := softDelete id (table d);
        calls := calls d ++ [FindOne (WhereId id); SoftDelete id] |}).
Proof.
  intros Hhit. unfold Service.delete.
  unfold mbind, promise_bind, await. rewrite (service_findOne_hit _ _ e Hhit).
  unfold RepositoryImpl.delete, repo_softDelete, record. cbn [table calls].
  now rewrite <- app_assoc.
Qed.

End AdapterFacts.

(** ** The response envelope *)

Lemma envelope_is_listing_envelope {E : Type} (r : PaginatedResult E) :
  1 <= limit r -> is_listing_envelope r (Service.envelope r).
Proof.
  intros Hl. unfold is_listing_envelope, Service.envelope. simpl.
  repeat split; now apply Math_ceil_div_is_ceiling.
Qed.

(** C1.  [findAll] and [findWithFilter] of the service settle to an
    envelope [{data, paginate: {total, limit, offset, pages}}] that carries
    the repository's data, total, limit and offset, with a total that is not
    negative and, the limit being at least 1, [pages] the ceiling of
    [total / limit]. *)
Theorem listing_envelope_pages {E : Type} `{Orm.Entity E}
    (p : Params.t) (d : Async.db E) :
  1 <= Params.number_or (Params.limit p) 10 ->
  (exists r e d',
     RepositoryImpl.findAll p d = (Async.Ok r, d')
     /\ Service.findAll p d = (Async.Ok e, d')
     /\ is_listing_envelope r e
     /\ 0 <= total r /\ 1 <= limit r
     /\ p_pages (e_paginate e) = (total r + limit r - 1) / limit r)
  /\ (exists r e d',
        RepositoryImpl.findWithFilter p d = (Async.Ok r, d')
        /\ Service.findWithFilter p d = (Async.Ok e, d')
        /\ is_listing_envelope r e
        /\ 0 <= total r /\ 1 <= limit r
        /\ p_pages (e_paginate e) = (total r + limit r - 1) / limit r).
Proof.
  intros Hl. split.
  - eexists _, _, _. split; [apply findAll_run|].
    split; [apply service_findAll_run, findAll_run|].
    split; [now apply envelope_is_listing_envelope|].
    split; [apply findAndCount_total_nonneg|].
    split; [exact Hl|]. now apply Math_ceil_div_formula.
  - eexists _, _, _. split; [apply findWithFilter_run|].
    split; [apply service_findWithFilter_run, findWithFilter_run|].
    split; [now apply envelope_is_listing_envelope|].
    split; [apply findAndCount_total_nonneg|].
    split; [exact Hl|]. now apply Math_ceil_div_formula.
Qed.

Lemma listing_envelope_pages_witness :
  1 <= Params.number_or (Params.limit Sample.no_params) 10
  /\ exists r e d',
       RepositoryImpl.findAll Sample.no_params Sample.guests = (Async.Ok r, d')
       /\ Service.findAll Sample.no_params Sample.guests = (Async.Ok e, d')
       /\ is_listing_envelope r e.
Proof.
  assert (Hl : 1 <= Params.number_or (Params.limit Sample.no_params) 10)
    by (simpl; lia).
  split; [exact Hl|].
  destruct (listing_envelope_pages Sample.no_params Sample.guests Hl)
    as [(r & e & d' & Hr & He & Henv & _) _].
  exists r, e, d'. split; [exact Hr | split; [exact He | exact Henv]].
Defined.

(** ** Absent ids *)

(** C3.  When [findById] finds no row for the id, [update] and [delete] of
    the service reject with the not-found condition of [findOne]; the only
    call recorded is that lookup, so neither [update] nor [softDelete] of
    the repository is reached and the table is the one before. *)
Theorem absent_id_is_rejected_before_mutation {E : Type} `{Orm.Entity E}
    (Name id : string) (data : Orm.partial) (d : Async.db E) :
  Orm.findOne (Orm.WhereId id) (Async.table d) = None ->
  let not_found :=
    Async.NotFoundException (Name +:+ " " +:+ id +:+ " not found") in
  let u := Service.update Name id data d in
  let r := Service.delete Name id d in
  u.1 = Async.Err not_found
  /\ r.1 = Async.Err not_found
  /\ Async.table u.2 = Async.table d
  /\ Async.table r.2 = Async.table d
  /\ Async.calls u.2 = Async.calls d ++ [Orm.FindOne (Orm.WhereId id)]
  /\ Async.calls r.2 = Async.calls d ++ [Orm.FindOne (Orm.WhereId id)]
  /\ List.filter mutates (Async.calls u.2) = List.filter mutates (Async.calls d)
  /\ List.filter mutates (Async.calls r.2) = List.filter mutates (Async.calls d).
Proof.
  intros Hmiss not_found u r. subst not_found u r.
  rewrite (service_update_miss Name id data d Hmiss).
  rewrite (service_delete_miss Name id d Hmiss).
  cbn [fst snd Async.record Async.table Async.calls].
  rewrite !List.filter_app. cbn [List.filter mutates].
  rewrite app_nil_r. repeat split.
Qed.

Lemma absent_id_is_rejected_before_mutation_witness :
  Orm.findOne (Orm.WhereId "c3") (Async.table Sample.guests) = None
  /\ (Service.update "Room" "c3" Sample.rename_eve Sample.guests).1
     = Async.Err (Async.NotFoundException "Room c3 not found")
  /\ Async.table (Service.update "Room" "c3" Sample.rename_eve Sample.guests).2
     = Async.table Sample.guests.
Proof.
  split; [reflexivity|].
  destruct (absent_id_is_rejected_before_mutation
              "Room" "c3" Sample.rename_eve Sample.guests eq_refl)
    as (Hu & _ & Ht & _).
  split; [exact Hu | exact Ht].
Defined.

(** ** The listing algorithm *)

(** C5 as stated fails for [findAll]: with a search term in the request it
    returns the unfiltered page, both live guests with a total of 2, where
    filtering on [li] would leave Alice alone. *)
Lemma findAll_ignores_search :
  (RepositoryImpl.findAll Sample.search_li Sample.guests).1
  = Async.Ok (Paginated [Sample.bob; Sample.alice] 2 10 0)
  /\ claimed_listing Sample.search_li Sample.guests
     = Async.Ok (Paginated [Sample.alice] 1 10 0)
  /\ (RepositoryImpl.findAll Sample.search_li Sample.guests).1
     ≠ claimed_listing Sample.search_li Sample.guests.
Proof.
  split; [reflexivity|]. split; [reflexivity|].
  vm_compute. discriminate.
Qed.

Section RequestFacts.

Lemma or_number_value (field : option Z) (fallback value : Z) :
  or_number field fallback value -> Params.number_or field fallback = value.
Proof.
  unfold or_number, Params.number_or, Params.truthy_number.
  intros [[-> Hv] | [[-> | ->] ->]]; [|reflexivity|reflexivity].
  now destruct (Z.eqb_spec value 0).
Qed.

Lemma or_string_value (field : option string) (fallback value : string) :
  or_string field fallback value -> Params.string_or field fallback = value.
Proof.
  unfold or_string, Params.string_or, Params.truthy_string.
  intros [[-> Hv] | [[-> | ->] ->]]; [|reflexivity|reflexivity].
  now rewrite (string_eqb_ne _ _ Hv).
Qed.

Lemma where_of_clause (search : option string) :
  RepositoryImpl.where_of search = clause_of (search_term search).
Proof.
  unfold RepositoryImpl.where_of, search_term, clause_of,
    Params.truthy_string.
  destruct search as [term|]; [|reflexivity].
  now destruct (String.eqb term "").
Qed.

Lemma findAndCount_listing {E : Type} `{Orm.Entity E} (term : option string)
    (l o : Z) (s r : string) (rows : list E) :
  Orm.findAndCount (Orm.FindMany (clause_of term) l o (s, r)) rows
  = listing term s r o l rows.
Proof.
  unfold Orm.findAndCount, listing, clause_of.
  cbn [Orm.fo_where Orm.fo_take Orm.fo_skip Orm.fo_order fst snd].
  destruct term as [t|]; now rewrite ?matching_all, ?matching_ilike.
Qed.

End RequestFacts.

(** C5, amended.  Each listing operation makes one [findAndCount] call
    with the limit, offset, sort and order of the request, a field that is
    absent, 0 or empty replaced by 10, 0, [createdAt], [DESC];
    [findWithFilter] gives it the where clause [guestName ILIKE %search%]
    when the search is a non-empty string, [findAll] never gives one.  A
    result that settles is the page of the listing algorithm: the rows
    sorted by the sort field in the direction, [offset] rows skipped, at
    most [limit] taken, and as total the number of matching rows before
    pagination.  Without a non-empty search the two operations do the
    same. *)
Theorem listing_operations_algorithm {E : Type} `{Orm.Entity E}
    (p : Params.t) (d : Async.db E) (l o : Z) (s r : string) :
  or_number (Params.limit p) 10 l ->
  or_number (Params.offset p) 0 o ->
  or_string (Params.sort p) "createdAt" s ->
  or_string (Params.order p) "DESC" r ->
  0 <= l ->
  let term := search_term (Params.search p) in
  let all := listing None s r o l (Async.table d) in
  let found := listing term s r o l (Async.table d) in
  Async.calls (RepositoryImpl.findAll p d).2
  = Async.calls d
    ++ [Orm.FindAndCount (Orm.FindMany Orm.WhereAll l o (s, r))]
  /\ Async.calls (RepositoryImpl.findWithFilter p d).2
     = Async.calls d
       ++ [Orm.FindAndCount (Orm.FindMany (clause_of term) l o (s, r))]
  /\ (forall res,
        (RepositoryImpl.findAll p d).1 = Async.Ok res ->
        res = Paginated all.1 all.2 l o
        /\ Z.of_nat (length (data res)) <= l)
  /\ (forall res,
        (RepositoryImpl.findWithFilter p d).1 = Async.Ok res ->
        res = Paginated found.1 found.2 l o
        /\ Z.of_nat (length (data res)) <= l)
  /\ (term = None ->
      RepositoryImpl.findWithFilter p d = RepositoryImpl.findAll p d).
Proof.
  intros Hl Ho Hs Hr Hpos term all found. subst term all found.
  apply or_number_value in Hl, Ho. apply or_string_value in Hs, Hr.
  rewrite findAll_run, findWithFilter_run. cbv zeta.
  unfold options_of. rewrite Hl, Ho, Hs, Hr, where_of_clause.
  cbn [fst snd Async.record Async.calls].
  change Orm.WhereAll with (clause_of None) at 2 3.
  rewrite <- !findAndCount_listing.
  split; [reflexivity|]. split; [reflexivity|].
  split; [|split].
  - intros res Hres. injection Hres as <-. split; [reflexivity|].
    exact (findAndCount_length (Orm.FindMany (clause_of None) l o (s, r))
             (Async.table d) Hpos).
  - intros res Hres. injection Hres as <-. split; [reflexivity|].
    exact (findAndCount_length
             (Orm.FindMany (clause_of (search_term (Params.search p)))
                l o (s, r))
             (Async.table d) Hpos).
  - intros Hnone. now rewrite Hnone.
Qed.

Lemma listing_operations_algorithm_witness :
  or_number (Params.limit Sample.search_li) 10 10
  /\ or_string (Params.sort Sample.search_li) "createdAt" "createdAt"
  /\ Async.calls (RepositoryImpl.findWithFilter Sample.search_li
                    Sample.guests).2
     = [Orm.FindAndCount
          (Orm.FindMany (Orm.WhereILike "guestName" "%li%") 10 0
             ("createdAt", "DESC"))]
  /\ (RepositoryImpl.findWithFilter Sample.search_li Sample.guests).1
     = Async.Ok (Paginated [Sample.alice] 1 10 0).
Proof.
  assert (Hl : or_number (Params.limit Sample.search_li) 10 10)
    by (right; split; [now left | reflexivity]).
  assert (Ho : or_number (Params.offset Sample.search_li) 0 0)
    by (right; split; [now left | reflexivity]).
  assert (Hs : or_string (Params.sort Sample.search_li) "createdAt" "createdAt")
    by (right; split; [now left | reflexivity]).
  assert (Hr : or_string (Params.order Sample.search_li) "DESC" "DESC")
    by (right; split; [now left | reflexivity]).
  split; [exact Hl|]. split; [exact Hs|].
  destruct (listing_operations_algorithm Sample.search_li Sample.guests
              10 0 "createdAt" "DESC" Hl Ho Hs Hr ltac:(lia))
    as (_ & Hcalls & _ & Hfound & _).
  split; [exact Hcalls|].
  destruct (Hfound (Paginated [Sample.alice] 1 10 0) eq_refl) as [_ _].
  reflexivity.
Defined.

(** ** Update without an existing row *)

(** C9.  The adapter's [update] writes first and looks the row up after;
    when that lookup misses it rejects with a plain [Error].  The service's
    [update] looks the row up first and rejects with [NotFoundException]
    when it misses.  The two are different kinds of error. *)
Theorem update_is_guarded_in_both_layers {E : Type} `{Orm.Entity E}
    (Name id : string) (data : Orm.partial) (d_adapter d_service : Async.db E) :
  Orm.findOne (Orm.WhereId id) (Orm.update id data (Async.table d_adapter))
  = None ->
  Orm.findOne (Orm.WhereId id) (Async.table d_service) = None ->
  RepositoryImpl.update id data d_adapter
  = (Async.Err (Async.Error ("Entity " +:+ id +:+ " not found")),
     {| Async.table := Orm.update id data (Async.table d_adapter);
        Async.calls := Async.calls d_adapter
                       ++ [Orm.Update id data; Orm.FindOne (Orm.WhereId id)] |})
  /\ Service.update Name id data d_service
     = (Async.Err
          (Async.NotFoundException (Name +:+ " " +:+ id +:+ " not found")),
        {| Async.table := Async.table d_service;
           Async.calls := Async.calls d_service
                          ++ [Orm.FindOne (Orm.WhereId id)] |})
  /\ (forall m m', Async.Error m ≠ Async.NotFoundException m').
Proof.
  intros Hpost Hpre.
  split; [now apply adapter_update_miss|].
  split; [now apply service_update_miss|].
  intros m m'. discriminate.
Qed.

Lemma update_is_guarded_in_both_layers_witness :
  Orm.findOne (Orm.WhereId "zz")
    (Orm.update "zz" Sample.rename_eve (Async.table Sample.guests)) = None
  /\ Orm.findOne (Orm.WhereId "zz") (Async.table Sample.guests) = None
  /\ (RepositoryImpl.update "zz" Sample.rename_eve Sample.guests).1
     = Async.Err (Async.Error "Entity zz not found")
  /\ (Service.update "Room" "zz" Sample.rename_eve Sample.guests).1
     = Async.Err (Async.NotFoundException "Room zz not found").
Proof.
  split; [reflexivity|]. split; [reflexivity|].
  destruct (update_is_guarded_in_both_layers
              "Room" "zz" Sample.rename_eve Sample.guests Sample.guests
              eq_refl eq_refl)
    as (Ha & Hs & _).
  split; [rewrite Ha | rewrite Hs]; reflexivity.
Defined.

(** ** Defaults *)

Lemma number_or_falsy (value : option Z) (fallback : Z) :
  Params.falsy_number value = true -> Params.number_or value fallback = fallback.
Proof.
  unfold Params.falsy_number, Params.number_or.
  destruct value as [n|]; [|reflexivity].
  now destruct (Params.truthy_number n).
Qed.

Lemma string_or_falsy (value : option string) (fallback : string) :
  Params.falsy_string value = true -> Params.string_or value fallback = fallback.
Proof.
  unfold Params.falsy_string, Params.string_or.
  destruct value as [s|]; [|reflexivity].
  now destruct (Params.truthy_string s).
Qed.

(** A value that is not falsy is used as given. *)
Lemma number_or_truthy (n fallback : Z) :
  n ≠ 0 -> Params.number_or (Some n) fallback = n.
Proof.
  intros Hn. unfold Params.number_or, Params.truthy_number.
  now destruct (Z.eqb_spec n 0).
Qed.

(** The validation of the boundary turns a zero limit away. *)
Lemma validation_rejects_zero_limit (offset : option PaginationDto.number)
    (sort order : option string) :
  PaginationDto.validate
    (PaginationDto.Dto (Some (PaginationDto.Num 0)) offset sort order) = false.
Proof. reflexivity. Qed.

(** C10.  Both listing operations of the adapter call the ORM with the
    options [options_of] computes, in which every falsy field, absent, [0]
    or the empty string, has been replaced by its default; a limit of [0]
    in the request is run, and reported back, as a limit of [10]. *)
Theorem adapter_redefaults_falsy_values {E : Type} `{Orm.Entity E}
    (p : Params.t) (d : Async.db E) :
  let o_all := options_of Orm.WhereAll p in
  let o_filter := options_of (RepositoryImpl.where_of (Params.search p)) p in
  Async.calls (RepositoryImpl.findAll p d).2
  = Async.calls d ++ [Orm.FindAndCount o_all]
  /\ Async.calls (RepositoryImpl.findWithFilter p d).2
     = Async.calls d ++ [Orm.FindAndCount o_filter]
  /\ (Params.falsy_number (Params.limit p) = true ->
      Orm.fo_take o_all = 10 /\ Orm.fo_take o_filter = 10)
  /\ (Params.falsy_number (Params.offset p) = true ->
      Orm.fo_skip o_all = 0 /\ Orm.fo_skip o_filter = 0)
  /\ (Params.falsy_string (Params.sort p) = true ->
      (Orm.fo_order o_all).1 = "createdAt"
      /\ (Orm.fo_order o_filter).1 = "createdAt")
  /\ (Params.falsy_string (Params.order p) = true ->
      (Orm.fo_order o_all).2 = "DESC" /\ (Orm.fo_order o_filter).2 = "DESC")
  /\ (Params.limit p = Some 0 ->
      exists r1 r2,
        (RepositoryImpl.findAll p d).1 = Async.Ok r1
        /\ (RepositoryImpl.findWithFilter p d).1 = Async.Ok r2
        /\ limit r1 = 10 /\ limit r2 = 10
        /\ Orm.fo_take o_all = 10 /\ Orm.fo_take o_filter = 10).
Proof.
  intros o_all o_filter. subst o_all o_filter.
  rewrite findAll_run, findWithFilter_run.
  cbn [snd fst Async.record Async.calls options_of
       Orm.fo_take Orm.fo_skip Orm.fo_order].
  split; [reflexivity|]. split; [reflexivity|].
  split; [intros Hf; now rewrite number_or_falsy|].
  split; [intros Hf; now rewrite number_or_falsy|].
  split; [intros Hf; now rewrite string_or_falsy|].
  split; [intros Hf; now rewrite string_or_falsy|].
  intros Hz. eexists _, _. rewrite Hz.
  split; [reflexivity|]. split; [reflexivity|]. now repeat split.
Qed.

Lemma adapter_redefaults_falsy_values_witness :
  Params.limit Sample.limit_zero = Some 0
  /\ Async.calls (RepositoryImpl.findAll Sample.limit_zero Sample.guests).2
     = [Orm.FindAndCount
          {| Orm.fo_where := Orm.WhereAll; Orm.fo_take := 10; Orm.fo_skip := 0;
             Orm.fo_order := ("createdAt", "DESC") |}]
  /\ exists r,
       (RepositoryImpl.findAll Sample.limit_zero Sample.guests).1 = Async.Ok r
       /\ limit r = 10.
Proof.
  split; [reflexivity|].
  destruct (adapter_redefaults_falsy_values Sample.limit_zero Sample.guests)
    as (Hc & _ & _ & _ & _ & _ & Hz).
  split; [rewrite Hc; reflexivity|].
  destruct (Hz eq_refl) as (r1 & _ & Hr1 & _ & Hl1 & _).
  exists r1. split; [exact Hr1 | exact Hl1].
Defined.

(** C8 as stated fails: the validation accepts a limit of 3/2, which is
    not an integer. *)
Lemma fractional_limit_passes_validation :
  PaginationDto.validate
    (PaginationDto.plainToInstance
       (PaginationDto.Plain (Some (PaginationDto.Num (3 # 2))) None None None))
  = true
  /\ ~ PaginationDto.is_integer (PaginationDto.Num (3 # 2)).
Proof.
  split; [reflexivity|].
  intros [z Hz]. unfold Qeq in Hz. simpl in Hz. lia.
Qed.

Lemma Min_spec (k : Q) (v : PaginationDto.number) :
  PaginationDto.Min k v = true
  <-> exists q, v = PaginationDto.Num q /\ (k <= q)%Q.
Proof.
  destruct v as [q|]; simpl.
  - rewrite Qle_bool_iff. split.
    + intros Hq. now exists q.
    + intros (q' & Heq & Hq). now inversion Heq; subst.
  - split; [discriminate | intros (q & Heq & _); discriminate].
Qed.

(** C8, amended.  A request that carries none of the four keys becomes the
    instance [limit = 10, offset = 0, sort = "createdAt", order = "DESC"];
    the validation accepts an instance exactly when its limit, if defined,
    is a number at least 1 and its offset, if defined, a number at least 0
    (whole or not); and both listing operations of the adapter, given
    parameters with the four fields absent, call the ORM with [take = 10],
    [skip = 0] and the order [createdAt DESC], and report limit 10 and
    offset 0. *)
Theorem pagination_defaults :
  PaginationDto.plainToInstance (PaginationDto.Plain None None None None)
  = PaginationDto.Dto (Some (PaginationDto.Num 10)) (Some (PaginationDto.Num 0))
      (Some "createdAt") (Some "DESC")
  /\ (forall d : PaginationDto.t,
        PaginationDto.validate d = true
        <-> (PaginationDto.limit d = None
             \/ exists q, PaginationDto.limit d = Some (PaginationDto.Num q)
                          /\ (1 <= q)%Q)
            /\ (PaginationDto.offset d = None
                \/ exists q, PaginationDto.offset d = Some (PaginationDto.Num q)
                             /\ (0 <= q)%Q))
  /\ (forall (E : Type) (H : Orm.Entity E) (search : option string)
             (d : Async.db E),
        let p := Params.Params None None None None search in
        let defaults w :=
          {| Orm.fo_where := w; Orm.fo_take := 10; Orm.fo_skip := 0;
             Orm.fo_order := ("createdAt", "DESC") |} in
        Async.calls (RepositoryImpl.findAll p d).2
        = Async.calls d ++ [Orm.FindAndCount (defaults Orm.WhereAll)]
        /\ Async.calls (RepositoryImpl.findWithFilter p d).2
           = Async.calls d
             ++ [Orm.FindAndCount (defaults (RepositoryImpl.where_of search))]
        /\ (exists rows total,
              (RepositoryImpl.findAll p d).1
              = Async.Ok (Paginated rows total 10 0))
        /\ (exists rows total,
              (RepositoryImpl.findWithFilter p d).1
              = Async.Ok (Paginated rows total 10 0))).
Proof.
  split; [reflexivity|]. split.
  - intros [l o s r]. unfold PaginationDto.validate.
    cbn [PaginationDto.limit PaginationDto.offset PaginationDto.sort
         PaginationDto.order].
    assert (Hs : forall v : option string,
               PaginationDto.IsOptional PaginationDto.IsString v = true)
      by (intros [v|]; reflexivity).
    rewrite !Hs, !andb_true_r, andb_true_iff.
    assert (Hopt : forall k v,
               PaginationDto.IsOptional (PaginationDto.Min k) v = true
               <-> v = None
                   \/ exists q, v = Some (PaginationDto.Num q) /\ (k <= q)%Q).
    { intros k [v|]; simpl.
      - rewrite Min_spec. split.
        + intros (q & -> & Hq). right. now exists q.
        + intros [Hn | (q & Heq & Hq)]; [discriminate|].
          inversion Heq; subst. now exists q.
      - split; [now left | reflexivity]. }
    now rewrite !Hopt.
  - intros E H search d p defaults. subst p defaults.
    rewrite findAll_run, findWithFilter_run.
    cbn [fst snd Async.record Async.calls].
    split; [reflexivity|]. split; [reflexivity|].
    split; eexists _, _; reflexivity.
Qed.

Lemma pagination_defaults_witness :
  PaginationDto.validate PaginationDto.new = true
  /\ (exists q, PaginationDto.limit PaginationDto.new
                = Some (PaginationDto.Num q) /\ (1 <= q)%Q).
Proof.
  split; [reflexivity|].
  destruct pagination_defaults as (_ & Hv & _).
  destruct (proj1 (Hv PaginationDto.new) eq_refl) as [[Hn | Hq] _].
  - discriminate Hn.
  - exact Hq.
Defined.

(** ** The search column *)

Section TextFacts.

Lemma prefix_split (needle s : string) :
  String.prefix needle s = true -> exists b, s = needle +:+ b.
Proof.
  revert s. induction needle as [|c needle IH]; intros s Hp.
  - now exists s.
  - destruct s as [|c' s]; simpl in Hp; [discriminate|].
    destruct (ascii_dec c c') as [<-|]; [|discriminate].
    destruct (IH s Hp) as [b ->]. now exists b.
Qed.

Lemma contains_split (needle s : string) :
  contains needle s = true -> exists a b, s = a +:+ needle +:+ b.
Proof.
  induction s as [|c s IH]; simpl; intros Hc.
  - rewrite orb_false_r in Hc.
    destruct needle; [now exists "", "" | discriminate].
  - apply orb_true_iff in Hc as [Hp | Hc].
    + destruct (prefix_split needle (String c s) Hp) as [b Hb].
      now exists "", b.
    + destruct (IH Hc) as (a & b & ->). now exists (String c a), b.
Qed.

(** A chunk of the template text survives every substitution. *)
Lemma mentioned_text_is_rendered (needle : string) (t : Template.template)
    (v : Template.variants) :
  template_mentions needle t = true ->
  exists pre post, Template.render v t = pre +:+ needle +:+ post.
Proof.
  unfold template_mentions.
  induction t as [|p t IH]; [discriminate|].
  assert (Hrest : existsb (contains needle) (Template.literals t) = true ->
                  exists pre post,
                    Template.render v (p :: t) = pre +:+ needle +:+ post).
  { intros Ht. destruct (IH Ht) as (pre & post & Hr).
    exists (Template.subst v p +:+ pre), post.
    cbn [Template.render]. now rewrite Hr, string_app_assoc. }
  destruct p as [s| | |]; try exact Hrest.
  unfold Template.literals. cbn [omap list_omap existsb].
  fold (Template.literals t).
  intros Hm. apply orb_true_iff in Hm as [Hs | Ht]; [|now apply Hrest].
  destruct (contains_split _ _ Hs) as (a & b & ->).
  exists a, (b +:+ Template.render v t).
  cbn [Template.render Template.subst]. now rewrite !string_app_assoc.
Qed.

End TextFacts.

(** C4.  Whatever the resource name, the adapter's [findWithFilter]
    matches a non-empty search term against the column [guestName], with
    the pattern [%term%] under [ILIKE]: that is the where clause of the
    [findAndCount] call it makes, for every entity, and the clause stands
    literally in the text generated for every name.  The entity template
    declares the four columns [id], [createdAt], [updatedAt] and
    [deletedAt] and nowhere mentions [guestName]: the search is on a
    column the generated entity does not have. *)
Theorem search_targets_undeclared_guestName
    (path_join : list string -> string) (toUpperCase : string -> string)
    (name term : string) :
  term ≠ "" ->
  (forall (E : Type) (H : Orm.Entity E) (p : Params.t) (d : Async.db E),
     Params.search p = Some term ->
     exists o,
       Async.calls (RepositoryImpl.findWithFilter p d).2
       = Async.calls d ++ [Orm.FindAndCount o]
       /\ Orm.fo_where o = Orm.WhereILike "guestName" ("%" +:+ term +:+ "%"))
  /\ RepositoryImpl.where_of (Some term)
     = Orm.WhereILike "guestName" ("%" +:+ term +:+ "%")
  /\ (exists pre post,
        Template.render (Generator.variants_of path_join toUpperCase name)
          Template.repository_impl_text
        = pre +:+ guestName_clause +:+ post)
  /\ declared_columns Template.entity_text
     = ["id"; "createdAt"; "updatedAt"; "deletedAt"]
  /\ RepositoryImpl.entity_columns = declared_columns Template.entity_text
  /\ ("guestName" ∉ declared_columns Template.entity_text)
  /\ ("guestName" ∉ RepositoryImpl.entity_columns)
  /\ template_mentions "guestName" Template.entity_text = false
  /\ column_decorators Template.entity_text
     = length RepositoryImpl.entity_columns
  /\ forallb (fun decl => template_mentions decl Template.entity_text)
       entity_column_declarations = true.
Proof.
  intros Ht.
  assert (Hwhere : RepositoryImpl.where_of (Some term)
                   = Orm.WhereILike "guestName" ("%" +:+ term +:+ "%")).
  { unfold RepositoryImpl.where_of, Params.truthy_string.
    now rewrite (string_eqb_ne _ _ Ht). }
  assert (Hcols : declared_columns Template.entity_text
                  = ["id"; "createdAt"; "updatedAt"; "deletedAt"])
    by (vm_compute; reflexivity).
  assert (Hnot : "guestName" ∉ RepositoryImpl.entity_columns).
  { unfold RepositoryImpl.entity_columns.
    rewrite !not_elem_of_cons. repeat split; try discriminate.
    apply not_elem_of_nil. }
  split.
  { intros E H p d Hsearch. eexists. split.
    - rewrite findWithFilter_run. cbv zeta. reflexivity.
    - cbn [options_of Orm.fo_where]. now rewrite Hsearch. }
  split; [exact Hwhere|].
  split; [apply mentioned_text_is_rendered; vm_compute; reflexivity|].
  split; [exact Hcols|].
  split; [now rewrite Hcols|].
  split; [rewrite Hcols; exact Hnot|].
  split; [exact Hnot|].
  repeat split; vm_compute; reflexivity.
Qed.

Lemma search_targets_undeclared_guestName_witness :
  "li" ≠ ""
  /\ (exists o,
        Async.calls (RepositoryImpl.findWithFilter Sample.search_li
                       Sample.guests).2
        = Async.calls Sample.guests ++ [Orm.FindAndCount o]
        /\ Orm.fo_where o = Orm.WhereILike "guestName" "%li%")
  /\ ("guestName" ∉ declared_columns Template.entity_text).
Proof.
  split; [discriminate|].
  destruct (search_targets_undeclared_guestName
              Sample.path_join Sample.toUpperCase "room" "li"
              ltac:(discriminate))
    as (Hcall & _ & _ & _ & _ & Hcol & _).
  split; [exact (Hcall _ _ Sample.search_li Sample.guests eq_refl) | exact Hcol].
Defined.

(** * Further properties of the generator *)


Section RunFacts.

Import Generator.

Variable path_join : list string -> string.
Variable toUpperCase : string -> string.

Lemma write_in_generated_calls (name path content : string)
    (ops1 ops2 : list fs_op) :
  generated_calls path_join toUpperCase name
  = ops1 ++ WriteFileSync path content :: ops2 ->
  path ∈ designated_paths (base_of path_join name) name
  /\ forall dir, dir ∈ folders (base_of path_join name) ->
                 MkdirSync dir ∈ ops1.
Proof.
  unfold generated_calls. intros Heq.
  assert (Hno : forall l, WriteFileSync path content ∉ map MkdirSync l).
  { intros l Hin. apply list_elem_of_fmap in Hin as (d & Hd & _).
    discriminate Hd. }
  assert (Hw : forall l : list (string * string),
             WriteFileSync path content
               ∈ map (fun kv => WriteFileSync kv.1 kv.2) l ->
             path ∈ l.*1).
  { intros l Hin. apply list_elem_of_fmap in Hin as ([k c] & Hk & Hin).
    inversion Hk; subst. apply list_elem_of_fmap. now exists (k, c). }
  apply List.app_eq_app in Heq as [l [[Hm Hr] | [Ho Hr]]].
  - destruct l as [|op l].
    + rewrite app_nil_r in Hm. subst ops1. cbn [app] in Hr. split.
      * rewrite <- (props_keys path_join toUpperCase). apply Hw.
        rewrite <- Hr. left.
      * intros dir Hd. apply list_elem_of_fmap. now exists dir.
    + exfalso. cbn [app] in Hr. injection Hr as Hop _. subst op.
      apply (Hno (folders (base_of path_join name))).
      rewrite Hm. apply elem_of_app. right. left.
  - split.
    + rewrite <- (props_keys path_join toUpperCase). apply Hw. rewrite Hr.
      apply elem_of_app. right. left.
    + intros dir Hd. rewrite Ho. apply elem_of_app. left.
      apply list_elem_of_fmap. now exists dir.
Qed.

Lemma main_keeps_other_files (argv : list string) (name path : string)
    (w : world) :
  argv !! 2%nat = Some name -> name ≠ "" ->
  path ∉ designated_paths (base_of path_join name) name ->
  fs_files (main path_join toUpperCase argv w).2 !! path = fs_files w !! path.
Proof.
  intros Harg Hne Hout.
  rewrite (main_files path_join toUpperCase _ _ _ Harg Hne).
  rewrite lookup_union.
  assert (Hnone : written (generated_calls path_join toUpperCase name)
                    !! path = None).
  { apply not_elem_of_dom. rewrite written_paths.
    now rewrite elem_of_list_to_set. }
  rewrite Hnone. now destruct (fs_files w !! path).
Qed.

End RunFacts.

(** X1.  In the calls of a run, for a name without a path separator, every
    file is written into a directory that an earlier call of the same run
    has created: the path is that directory, a separator and a file name. *)
Theorem folders_are_created_before_files (path_join : list string -> string)
    (toUpperCase : string -> string) (name path content : string)
    (ops1 ops2 : list Generator.fs_op) :
  no_slash name = true ->
  generated_calls path_join toUpperCase name
  = ops1 ++ Generator.WriteFileSync path content :: ops2 ->
  exists dir leaf,
    path = dir +:+ "/" +:+ leaf
    /\ no_slash leaf = true
    /\ Generator.MkdirSync dir ∈ ops1.
Proof.
  intros Hname Heq.
  destruct (write_in_generated_calls _ _ _ _ _ _ _ Heq) as [Hpath Hdirs].
  destruct (designated_path_in_folder _ _ _ Hname Hpath)
    as (dir & leaf & Hp & Hl & Hd).
  exists dir, leaf. split; [exact Hp|]. split; [exact Hl|]. now apply Hdirs.
Qed.

(** X2.  A successful run for a name without a path separator calls the
    filesystem on the seven folders and the twelve designated paths only,
    all of which begin with the base directory of the module; it leaves
    every file outside the twelve paths as it was; and the directories
    afterwards are those before, the seven folders and the directories on
    the way to them. *)
Theorem generator_touches_only_its_module (path_join : list string -> string)
    (toUpperCase : string -> string) (name : string) (argv : list string)
    (w : Generator.world) :
  argv !! 2%nat = Some name ->
  name ≠ "" ->
  no_slash name = true ->
  let base := Generator.base_of path_join name in
  let r := Generator.main path_join toUpperCase argv w in
  let called :=
    drop (length (Generator.fs_calls w)) (Generator.fs_calls r.2) in
  (forall op, op ∈ called ->
     (exists dir,
        op = Generator.MkdirSync dir /\ dir ∈ Generator.folders base)
     \/ (exists path content,
           op = Generator.WriteFileSync path content
           /\ path ∈ designated_paths base name))
  /\ (forall path,
        path ∈ designated_paths base name ++ Generator.folders base ->
        exists rest, path = base +:+ rest)
  /\ (forall path, path ∉ designated_paths base name ->
        Generator.fs_files r.2 !! path = Generator.fs_files w !! path)
  /\ Generator.fs_dirs r.2
     = list_to_set (Generator.folders base ≫= Generator.with_ancestors)
       ∪ Generator.fs_dirs w
  /\ (forall dir, dir ∈ Generator.folders base ->
                  dir ∈ Generator.fs_dirs r.2).
Proof.
  intros Harg Hne Hslash base r called. subst base r called.
  rewrite (main_calls path_join toUpperCase argv name w Harg Hne).
  rewrite drop_app_length.
  rewrite (main_dirs path_join toUpperCase argv name w Harg Hne).
  split; [|split; [|split; [|split]]].
  - intros op Hop. unfold generated_calls in Hop.
    apply elem_of_app in Hop as [Hop | Hop].
    + left. apply list_elem_of_fmap in Hop as (dir & -> & Hd). now exists dir.
    + right. apply list_elem_of_fmap in Hop as ([k c] & -> & Hkc).
      exists k, c. split; [reflexivity|].
      rewrite <- (props_keys path_join toUpperCase).
      apply list_elem_of_fmap. now exists (k, c).
  - intros path Hin. apply elem_of_app in Hin as [Hin | Hin].
    + destruct (designated_path_under_base _ _ _ Hin) as [rest ->].
      now exists ("/" +:+ rest).
    + now apply folder_under_base.
  - intros path Hout.
    exact (main_keeps_other_files path_join toUpperCase argv name path w
             Harg Hne Hout).
  - reflexivity.
  - intros dir Hd. apply elem_of_union. left. now apply folder_is_created.
Qed.

Lemma folders_are_created_before_files_witness :
  no_slash "room" = true
  /\ exists dir leaf,
       "src/core/room/domain/room.domain.ts" = dir +:+ "/" +:+ leaf
       /\ no_slash leaf = true
       /\ Generator.MkdirSync dir
          ∈ take 7 (generated_calls Sample.path_join Sample.toUpperCase "room").
Proof.
  split; [reflexivity|].
  apply (folders_are_created_before_files
           Sample.path_join Sample.toUpperCase "room"
           "src/core/room/domain/room.domain.ts"
           (Template.render
              (Generator.variants_of Sample.path_join Sample.toUpperCase "room")
              Template.domain_text)
           (take 7 (generated_calls Sample.path_join Sample.toUpperCase "room"))
           (drop 8 (generated_calls Sample.path_join Sample.toUpperCase "room")));
    reflexivity.
Defined.

Lemma generator_touches_only_its_module_witness :
  Sample.room_argv !! 2%nat = Some "room"
  /\ "room" ≠ ""
  /\ no_slash "room" = true
  /\ Generator.fs_files (Sample.run Sample.room_argv Sample.stale_world).2
       !! "src/core/hotel/hotel.module.ts"
     = Generator.fs_files Sample.stale_world !! "src/core/hotel/hotel.module.ts"
  /\ "src/core/room/dto"
     ∈ Generator.fs_dirs (Sample.run Sample.room_argv Sample.stale_world).2.
Proof.
  split; [reflexivity|]. split; [discriminate|]. split; [reflexivity|].
  destruct (generator_touches_only_its_module
              Sample.path_join Sample.toUpperCase "room"
              Sample.room_argv Sample.stale_world eq_refl ltac:(discriminate)
              eq_refl)
    as (_ & _ & Hkeep & _ & Hdirs).
  split.
  - apply Hkeep. unfold designated_paths.
    rewrite !not_elem_of_cons. repeat split; try discriminate.
    apply not_elem_of_nil.
  - apply Hdirs. apply list_elem_of_In. do 2 right. left. reflexivity.
Defined.

(** X3.  Two modules with different names, neither holding a path
    separator, whose bases are the same root followed by the name, share no
    file: generating the second leaves every file of the first as the
    first run wrote it. *)
Theorem modules_of_different_names_coexist
    (path_join : list string -> string) (toUpperCase : string -> string)
    (root name1 name2 : string) (argv1 argv2 : list string)
    (w : Generator.world) :
  argv1 !! 2%nat = Some name1 ->
  argv2 !! 2%nat = Some name2 ->
  name1 ≠ "" -> name2 ≠ "" -> name1 ≠ name2 ->
  no_slash name1 = true -> no_slash name2 = true ->
  Generator.base_of path_join name1 = root +:+ name1 ->
  Generator.base_of path_join name2 = root +:+ name2 ->
  let base1 := Generator.base_of path_join name1 in
  let base2 := Generator.base_of path_join name2 in
  let r1 := Generator.main path_join toUpperCase argv1 w in
  let r2 := Generator.main path_join toUpperCase argv2 r1.2 in
  (forall path, path ∈ designated_paths base1 name1 ->
                path ∉ designated_paths base2 name2)
  /\ (forall path, path ∈ designated_paths base1 name1 ->
        Generator.fs_files r2.2 !! path
        = written (generated_calls path_join toUpperCase name1) !! path
        /\ is_Some (Generator.fs_files r2.2 !! path)).
Proof.
  intros Harg1 Harg2 Hne1 Hne2 Hdiff Hs1 Hs2 Hb1 Hb2 base1 base2 r1 r2.
  subst base1 base2 r1 r2.
  assert (Hdisj : forall path,
             path ∈ designated_paths (Generator.base_of path_join name1) name1 ->
             path ∉ designated_paths (Generator.base_of path_join name2) name2).
  { intros path H1 H2.
    destruct (designated_path_under_base _ _ _ H1) as [rest1 E1].
    destruct (designated_path_under_base _ _ _ H2) as [rest2 E2].
    rewrite Hb1 in E1. rewrite Hb2 in E2. rewrite E1 in E2.
    rewrite !string_app_assoc in E2. apply String.app_inj in E2.
    apply Hdiff. exact (head_before_slash _ _ _ _ Hs1 Hs2 E2). }
  split; [exact Hdisj|].
  intros path Hin.
  rewrite (main_keeps_other_files path_join toUpperCase argv2 name2 path _
             Harg2 Hne2 (Hdisj path Hin)).
  rewrite (main_files path_join toUpperCase _ _ _ Harg1 Hne1).
  rewrite lookup_union.
  assert (Hsome : is_Some (written (generated_calls path_join toUpperCase name1)
                             !! path)).
  { apply elem_of_dom. rewrite written_paths.
    now apply elem_of_list_to_set. }
  destruct Hsome as [c Hc]. rewrite Hc.
  destruct (Generator.fs_files w !! path); split; eauto.
Qed.

Lemma modules_of_different_names_coexist_witness :
  Sample.room_argv !! 2%nat = Some "room"
  /\ "room" ≠ "hotel"
  /\ is_Some
       (Generator.fs_files
          (Sample.run ["node"; "generate-module.js"; "hotel"]
             (Sample.run Sample.room_argv Sample.empty_world).2).2
        !! "src/core/room/room.service.ts").
Proof.
  split; [reflexivity|]. split; [discriminate|].
  destruct (modules_of_different_names_coexist
              Sample.path_join Sample.toUpperCase "src/core/" "room" "hotel"
              Sample.room_argv ["node"; "generate-module.js"; "hotel"]
              Sample.empty_world
              eq_refl eq_refl ltac:(discriminate) ltac:(discriminate)
              ltac:(discriminate) eq_refl eq_refl eq_refl eq_refl)
    as (_ & Hkept).
  apply Hkept. unfold designated_paths.
  apply list_elem_of_In. do 9 right. left. reflexivity.
Defined.

Lemma render_without_base (v v' : Template.variants) (t : Template.template) :
  uses_base t = false ->
  Template.var_name v = Template.var_name v' ->
  Template.var_Name v = Template.var_Name v' ->
  Template.render v t = Template.render v' t.
Proof.
  intros Hb Hn HN. induction t as [|p t IH]; [reflexivity|].
  unfold uses_base in Hb. cbn [existsb] in Hb.
  apply orb_false_iff in Hb as [Hp Ht].
  cbn [Template.render]. rewrite (IH Ht).
  destruct p; cbn [Template.subst]; congruence.
Qed.

(** X4.  The text of every generated file is a function of the name and
    its capitalised form alone: whatever [path.join] makes of the base
    directory, the twelve contents are the same, in the same order. *)
Theorem contents_do_not_depend_on_base
    (path_join1 path_join2 : list string -> string)
    (toUpperCase : string -> string) (name : string) :
  (Generator.files path_join1 toUpperCase name).*2
  = (Generator.files path_join2 toUpperCase name).*2.
Proof.
  rewrite !files_are_props. unfold Generator.props.
  rewrite <- !list_fmap_compose.
  apply list_fmap_ext. intros i [pt tt] Hi. cbn [compose snd].
  apply render_without_base; [|reflexivity|reflexivity].
  apply list_elem_of_lookup_2 in Hi.
  assert (Hall : forallb (fun e => negb (uses_base e.2)) Template.entries
                 = true) by (vm_compute; reflexivity).
  rewrite forallb_forall in Hall.
  apply list_elem_of_In in Hi. specialize (Hall _ Hi).
  now apply negb_true_iff in Hall.
Qed.

(** X5.  For a name whose first character upper-cases to one character
    that upper-casing leaves alone, [capitalize] replaces that first
    character and nothing else: the rest of the name and its length are
    kept, the result is not empty, and capitalising again changes
    nothing. *)
Theorem capitalize_changes_first_character_only
    (toUpperCase : string -> string) (c c' : ascii) (rest : string) :
  toUpperCase (String c "") = String c' "" ->
  toUpperCase (String c' "") = String c' "" ->
  let str := String c rest in
  Generator.capitalize toUpperCase str = String c' rest
  /\ String.length (Generator.capitalize toUpperCase str) = String.length str
  /\ Generator.slice1 (Generator.capitalize toUpperCase str)
     = Generator.slice1 str
  /\ Generator.capitalize toUpperCase str ≠ ""
  /\ Generator.capitalize toUpperCase
       (Generator.capitalize toUpperCase str)
     = Generator.capitalize toUpperCase str.
Proof.
  intros Hc Hc' str. subst str. unfold Generator.capitalize.
  cbn [Generator.charAt0 Generator.slice1]. rewrite Hc.
  rewrite string_app_cons, string_app_nil.
  cbn [Generator.charAt0 Generator.slice1 String.length]. rewrite Hc'.
  rewrite string_app_cons, string_app_nil.
  repeat split. discriminate.
Qed.

Lemma capitalize_changes_first_character_only_witness :
  Sample.toUpperCase "r" = "R"
  /\ Sample.toUpperCase "R" = "R"
  /\ Generator.capitalize Sample.toUpperCase "room" = "Room"
  /\ Generator.capitalize Sample.toUpperCase
       (Generator.capitalize Sample.toUpperCase "room")
     = Generator.capitalize Sample.toUpperCase "room".
Proof.
  split; [reflexivity|]. split; [reflexivity|].
  destruct (capitalize_changes_first_character_only
              Sample.toUpperCase "r"%char "R"%char "oom" eq_refl eq_refl)
    as (Hcap & _ & _ & _ & Hagain).
  split; [exact Hcap | exact Hagain].
Defined.

(** * Further properties of the generated classes *)

Section PageFacts.

Import Orm Async.

Context {E : Type} `{Entity E}.

Lemma number_or_zero_fallback (n : Z) : Params.number_or (Some n) 0 = n.
Proof.
  unfold Params.number_or, Params.truthy_number.
  destruct (Z.eqb_spec n 0); simpl; congruence.
Qed.

(** The options of a windowed request: its limit, when not zero, and its
    offset are taken as they are. *)
Lemma options_of_window (w : where_clause) (o l : Z) (p : Params.t) :
  l ≠ 0 ->
  options_of w (with_window o l p)
  = {| fo_where := w; fo_take := l; fo_skip := o;
       fo_order := (Params.string_or (Params.sort p) "createdAt",
                    Params.string_or (Params.order p) "DESC") |}.
Proof.
  intros Hl. unfold options_of, with_window. cbn [Params.limit Params.offset
    Params.sort Params.order].
  now rewrite number_or_zero_fallback, number_or_truthy.
Qed.

Lemma findAndCount_pages (w : where_clause) (ord : string * string)
    (o l1 l2 : Z) (rows : list E) :
  0 <= o -> 0 <= l1 -> 0 <= l2 ->
  (findAndCount (FindMany w (l1 + l2) o ord) rows).1
  = (findAndCount (FindMany w l1 o ord) rows).1
    ++ (findAndCount (FindMany w l2 (o + l1) ord) rows).1.
Proof.
  intros Ho H1 H2. unfold findAndCount.
  cbn [fst fo_where fo_take fo_skip fo_order].
  rewrite !Z2Nat.inj_add by lia.
  rewrite <- drop_drop. now rewrite take_take_drop.
Qed.

Lemma findAndCount_total (o o' : FindManyOptions) (rows : list E) :
  fo_where o = fo_where o' ->
  (findAndCount o rows).2 = (findAndCount o' rows).2.
Proof. intros Hw. unfold findAndCount. cbn [snd]. now rewrite Hw. Qed.

Lemma findAndCount_size (o : FindManyOptions) (rows : list E) :
  order_keeps_length ->
  0 <= fo_take o -> 0 <= fo_skip o ->
  Z.of_nat (length (findAndCount o rows).1)
  = Z.min (fo_take o) (Z.max 0 ((findAndCount o rows).2 - fo_skip o)).
Proof.
  intros Hlen Ht Hs. unfold findAndCount. cbn [fst snd].
  rewrite length_take, length_drop, Hlen. lia.
Qed.

Lemma filter_length_le (f : E -> bool) (rows : list E) :
  (length (List.filter f rows) <= length rows)%nat.
Proof.
  induction rows as [|e rows IH]; simpl; [lia|].
  destruct (f e); simpl; lia.
Qed.

Lemma matching_le_all (w : where_clause) (rows : list E) :
  (length (matching w rows) <= length (matching WhereAll rows))%nat.
Proof.
  unfold matching.
  rewrite (filter_andb (fun e => negb (is_deleted e)) (satisfies w)).
  rewrite (filter_andb (fun e => negb (is_deleted e)) (satisfies WhereAll)).
  assert (Hall : List.filter (satisfies WhereAll)
                   (List.filter (fun e => negb (is_deleted e)) rows)
                 = List.filter (fun e => negb (is_deleted e)) rows).
  { generalize (List.filter (fun e => negb (is_deleted e)) rows).
    induction l as [|e l IH]; simpl; [reflexivity | now rewrite IH]. }
  rewrite Hall. apply filter_length_le.
Qed.

End PageFacts.

(** X7.  When ordering keeps the number of rows, a page holds
    [min limit (max 0 (total - offset))] rows; so a page whose offset is
    at or past the total is empty, and its total is the total all the
    same. *)
Theorem page_size_is_what_remains {E : Type} `{Orm.Entity E}
    (p : Params.t) (d : Async.db E) :
  order_keeps_length ->
  0 <= Params.number_or (Params.limit p) 10 ->
  0 <= Params.number_or (Params.offset p) 0 ->
  let limit := Params.number_or (Params.limit p) 10 in
  let offset := Params.number_or (Params.offset p) 0 in
  let all := (RepositoryImpl.findAll p d).1 in
  let found := (RepositoryImpl.findWithFilter p d).1 in
  Z.of_nat (length (rows_of all))
  = Z.min limit (Z.max 0 (total_of all - offset))
  /\ Z.of_nat (length (rows_of found))
     = Z.min limit (Z.max 0 (total_of found - offset))
  /\ (total_of all <= offset -> rows_of all = [])
  /\ (total_of found <= offset -> rows_of found = [])
  /\ total_of all
     = Z.of_nat (length (Orm.matching Orm.WhereAll (Async.table d))).
Proof.
  intros Hlen Hl Ho limit offset all found. subst all found limit offset.
  rewrite findAll_run, findWithFilter_run.
  cbn [fst rows_of total_of data total].
  pose proof (findAndCount_size (options_of Orm.WhereAll p) (Async.table d)
                Hlen Hl Ho) as Hall.
  pose proof (findAndCount_size
                (options_of (RepositoryImpl.where_of (Params.search p)) p)
                (Async.table d) Hlen Hl Ho) as Hfound.
  cbn [options_of Orm.fo_take Orm.fo_skip] in Hall, Hfound.
  split; [exact Hall|]. split; [exact Hfound|].
  split; [|split].
  - intros Hpast. apply length_zero_iff_nil. lia.
  - intros Hpast. apply length_zero_iff_nil. lia.
  - reflexivity.
Qed.

(** The sample table keeps the laws. *)
Section SampleLaws.

Import Sample.

Lemma insert_by_length (le : Guest -> Guest -> bool) (g : Guest)
    (l : list Guest) :
  length (insert_by le g l) = S (length l).
Proof.
  induction l as [|h l IH]; simpl; [reflexivity|].
  destruct (le g h); simpl; [reflexivity | now rewrite IH].
Qed.

Lemma guests_order_keeps_length : @order_keeps_length Guest Guest_entity.
Proof.
  intros column direction rows. cbn [Orm.order_by Guest_entity].
  unfold sort_rows. induction rows as [|g rows IH]; [reflexivity|].
  cbn [foldr]. rewrite insert_by_length. cbn [length]. now rewrite IH.
Qed.

Lemma guests_assign_keeps_identity :
  @assign_keeps_identity Guest Guest_entity.
Proof. intros data e. split; reflexivity. Qed.

Lemma guests_mark_deleted_deletes :
  @mark_deleted_deletes Guest Guest_entity.
Proof. intros e. split; reflexivity. Qed.

End SampleLaws.

Lemma page_size_is_what_remains_witness :
  @order_keeps_length Sample.Guest Sample.Guest_entity
  /\ 0 <= Params.number_or (Params.limit Sample.past_the_end) 10
  /\ rows_of (RepositoryImpl.findAll Sample.past_the_end Sample.guests).1 = []
  /\ total_of (RepositoryImpl.findAll Sample.past_the_end Sample.guests).1 = 2.
Proof.
  split; [exact guests_order_keeps_length|].
  split; [simpl; lia|].
  destruct (page_size_is_what_remains Sample.past_the_end Sample.guests
              guests_order_keeps_length ltac:(simpl; lia) ltac:(simpl; lia))
    as (_ & _ & Hempty & _ & Htotal).
  split; [apply Hempty; rewrite Htotal; simpl; lia | rewrite Htotal; reflexivity].
Defined.

(** X8.  The page count of the envelope counts the pages that hold rows:
    when ordering keeps the number of rows and the limit is at least 1,
    the page of index [k] (offset [k * limit], [k] from 0) is non-empty
    exactly when [k] is below [pages], and every such request reports the
    same [pages]. *)
Theorem pages_counts_the_nonempty_pages {E : Type} `{Orm.Entity E}
    (p : Params.t) (l k : Z) (d : Async.db E) (e : Envelope E) :
  order_keeps_length ->
  1 <= l -> 0 <= k ->
  (Service.findAll (with_window (k * l) l p) d).1 = Async.Ok e ->
  (e_data e ≠ [] <-> k < p_pages (e_paginate e))
  /\ p_pages (e_paginate e)
     = Math_ceil_div
         (Z.of_nat (length (Orm.matching Orm.WhereAll (Async.table d)))) l
  /\ p_limit (e_paginate e) = l
  /\ p_offset (e_paginate e) = k * l.
Proof.
  intros Hlen Hl Hk He.
  pose proof (findAll_run (with_window (k * l) l p) d) as Hr.
  rewrite options_of_window in Hr by lia.
  cbn [with_window Params.limit Params.offset] in Hr.
  rewrite number_or_zero_fallback, number_or_truthy in Hr by lia.
  rewrite (service_findAll_run _ _ _ _ Hr) in He.
  cbn [fst] in He. apply (f_equal (fun s => match s with
                                            | Async.Ok x => x
                                            | Async.Err _ => e
                                            end)) in He.
  subst e. unfold Service.envelope.
  cbn [e_data e_paginate p_pages p_limit p_offset data total limit offset].
  set (o := {| Orm.fo_where := Orm.WhereAll; Orm.fo_take := l;
               Orm.fo_skip := k * l;
               Orm.fo_order :=
                 (Params.string_or (Params.sort p) "createdAt",
                  Params.string_or (Params.order p) "DESC") |}).
  pose proof (findAndCount_size o (Async.table d) Hlen
                ltac:(simpl; lia) ltac:(simpl; nia)) as Hsize.
  cbn [o Orm.fo_take Orm.fo_skip] in Hsize.
  assert (Htot : (Orm.findAndCount o (Async.table d)).2
                 = Z.of_nat
                     (length (Orm.matching Orm.WhereAll (Async.table d))))
    by reflexivity.
  rewrite Htot in *.
  set (t := Z.of_nat (length (Orm.matching Orm.WhereAll (Async.table d))))
    in *.
  destruct (Math_ceil_div_is_ceiling t l Hl) as [Hlo Hhi].
  unfold is_ceiling_of_quotient in Hlo, Hhi.
  set (pg := Math_ceil_div t l) in *.
  split; [|repeat split].
  rewrite <- length_zero_iff_nil.
  split.
  - intros Hne.
    assert (Hpos : k * l < t) by lia. nia.
  - intros Hlt. assert (Hpos : k * l < t) by nia. lia.
Qed.

Lemma pages_counts_the_nonempty_pages_witness :
  @order_keeps_length Sample.Guest Sample.Guest_entity
  /\ 1 <= 1 /\ 0 <= 1
  /\ (Service.findAll (with_window (1 * 1) 1 Sample.no_params)
        Sample.guests).1
     = Async.Ok (MkEnvelope [Sample.alice] (MkPaginate 2 1 1 2))
  /\ 1 < 2.
Proof.
  split; [exact guests_order_keeps_length|].
  split; [lia|]. split; [lia|]. split; [reflexivity|].
  destruct (pages_counts_the_nonempty_pages Sample.no_params 1 1 Sample.guests
              (MkEnvelope [Sample.alice] (MkPaginate 2 1 1 2))
              guests_order_keeps_length ltac:(lia) ltac:(lia) eq_refl)
    as (Hiff & _).
  apply Hiff. discriminate.
Defined.

(** X9.  Listing and looking up never call [save], [update] or
    [softDelete] and leave the table as it is; and among listings that
    settle, the total of [findAll] is the same whatever the window, sort
    and order of the request, while the total of [findWithFilter] is the
    same for the same search term and never exceeds that of [findAll]. *)
Theorem reads_keep_the_table_and_totals {E : Type} `{Orm.Entity E}
    (p p' : Params.t) (id : string) (d : Async.db E)
    (all all' found found' : PaginatedResult E) :
  (RepositoryImpl.findAll p d).1 = Async.Ok all ->
  (RepositoryImpl.findAll p' d).1 = Async.Ok all' ->
  (RepositoryImpl.findWithFilter p d).1 = Async.Ok found ->
  (RepositoryImpl.findWithFilter p' d).1 = Async.Ok found' ->
  total all = total all'
  /\ (Params.search p = Params.search p' -> total found = total found')
  /\ 0 <= total found <= total all'
  /\ (forall after,
        after ∈ [ (RepositoryImpl.findAll p d).2;
                  (RepositoryImpl.findWithFilter p d).2;
                  (RepositoryImpl.findById id d).2 ] ->
        Async.table after = Async.table d
        /\ List.filter mutates (Async.calls after)
           = List.filter mutates (Async.calls d)).
Proof.
  rewrite !findAll_run, !findWithFilter_run. cbn [fst snd].
  intros Hall Hall' Hfound Hfound'.
  injection Hall as <-. injection Hall' as <-.
  injection Hfound as <-. injection Hfound' as <-.
  cbn [total].
  split; [reflexivity|]. split; [|split].
  - intros Hs. now rewrite Hs.
  - pose proof (matching_le_all (RepositoryImpl.where_of (Params.search p))
                  (Async.table d)). lia.
  - intros after Hafter.
    assert (Hread : exists c, mutates c = false /\ after = Async.record c d).
    { repeat (apply elem_of_cons in Hafter as [-> | Hafter];
              [eexists; split; cycle 1; [reflexivity | reflexivity]|]).
      inversion Hafter. }
    destruct Hread as (c & Hc & ->).
    cbn [Async.record Async.table Async.calls]. split; [reflexivity|].
    rewrite List.filter_app. cbn [List.filter]. rewrite Hc.
    now rewrite app_nil_r.
Qed.

Lemma reads_keep_the_table_and_totals_witness :
  (RepositoryImpl.findAll Sample.search_li Sample.guests).1
  = Async.Ok (Paginated [Sample.bob; Sample.alice] 2 10 0)
  /\ (RepositoryImpl.findWithFilter Sample.search_li Sample.guests).1
     = Async.Ok (Paginated [Sample.alice] 1 10 0)
  /\ 0 <= 1 <= 2.
Proof.
  split; [reflexivity|]. split; [reflexivity|].
  destruct (reads_keep_the_table_and_totals
              Sample.search_li Sample.search_li "a1" Sample.guests
              (Paginated [Sample.bob; Sample.alice] 2 10 0)
              (Paginated [Sample.bob; Sample.alice] 2 10 0)
              (Paginated [Sample.alice] 1 10 0)
              (Paginated [Sample.alice] 1 10 0)
              eq_refl eq_refl eq_refl eq_refl)
    as (_ & _ & Hle & _).
  exact Hle.
Defined.

Section MutationFacts.

Import Orm Async.

Context {E : Type} `{Entity E}.

Lemma matching_after_update (id id' : string) (data : partial)
    (rows : list E) :
  assign_keeps_identity ->
  matching (WhereId id') (update id data rows)
  = map (fun e => if String.eqb (entity_id e) id then assign data e else e)
        (matching (WhereId id') rows).
Proof.
  intros Hlaw. unfold matching, update.
  set (keep := fun e : E => negb (is_deleted e) && satisfies (WhereId id') e).
  set (upd := fun e : E =>
                if String.eqb (entity_id e) id then assign data e else e).
  induction rows as [|e rows IH]; [reflexivity|].
  cbn [map List.filter]. rewrite IH.
  destruct (Hlaw data e) as [Hid Hdel].
  assert (Hkeep : keep (upd e) = keep e).
  { unfold keep, upd, satisfies.
    destruct (String.eqb (entity_id e) id); [now rewrite Hid, Hdel | reflexivity]. }
  rewrite Hkeep. now destruct (keep e).
Qed.

Lemma findOne_after_update (id : string) (data : partial) (rows : list E)
    (e : E) :
  assign_keeps_identity ->
  findOne (WhereId id) rows = Some e ->
  findOne (WhereId id) (update id data rows) = Some (assign data e).
Proof.
  intros Hlaw Hfind. unfold findOne in *.
  rewrite matching_after_update by exact Hlaw.
  destruct (matching (WhereId id) rows) as [|e0 rest] eqn:Hm; [discriminate|].
  cbn [head] in Hfind. injection Hfind as ->. cbn [map head].
  assert (He : e ∈ matching (WhereId id) rows) by (rewrite Hm; left).
  unfold matching in He. apply list_elem_of_In, List.filter_In in He as [_ He].
  apply andb_true_iff in He as [_ He]. cbn [satisfies] in He.
  now rewrite He.
Qed.

Lemma update_keeps_other_rows (id : string) (data : partial) (rows : list E)
    (e : E) :
  e ∈ rows -> entity_id e ≠ id -> e ∈ update id data rows.
Proof.
  intros Hin Hne. unfold update. apply list_elem_of_fmap.
  exists e. split; [|exact Hin]. now rewrite (string_eqb_ne _ _ Hne).
Qed.

Lemma matching_after_softDelete (id id' : string) (rows : list E) :
  mark_deleted_deletes ->
  matching (WhereId id') (softDelete id rows)
  = if String.eqb id id' then [] else matching (WhereId id') rows.
Proof.
  intros Hlaw. unfold matching, softDelete.
  set (keep := fun e : E => negb (is_deleted e) && satisfies (WhereId id') e).
  set (del := fun e : E =>
                if String.eqb (entity_id e) id then mark_deleted e else e).
  induction rows as [|e rows IH]; [now destruct (String.eqb id id')|].
  cbn [map List.filter]. rewrite IH.
  destruct (Hlaw e) as [Hdel Hid].
  destruct (String.eqb id id') eqn:Hii.
  - apply String.eqb_eq in Hii. subst id'.
    assert (Hkeep : keep (del e) = false).
    { unfold keep, del, satisfies.
      destruct (String.eqb (entity_id e) id) eqn:Heq.
      - now rewrite Hdel.
      - rewrite Heq. apply andb_false_r. }
    now rewrite Hkeep.
  - assert (Hkeep : keep (del e) = false \/ del e = e).
    { unfold keep, del, satisfies.
      destruct (String.eqb (entity_id e) id) eqn:Heq; [left | now right].
      now rewrite Hdel. }
    destruct Hkeep as [Hkeep | Hsame].
    + rewrite Hkeep.
      assert (Hnot : keep e = false).
      { unfold keep, satisfies. unfold del in Hkeep.
        destruct (String.eqb (entity_id e) id) eqn:Heq.
        - apply String.eqb_eq in Heq. rewrite Heq, Hii. apply andb_false_r.
        - exact Hkeep. }
      now rewrite Hnot.
    + now rewrite Hsame.
Qed.

Lemma live_after_softDelete (id : string) (rows : list E) (e : E) :
  mark_deleted_deletes ->
  findOne (WhereId id) rows = Some e ->
  (length (matching WhereAll (softDelete id rows))
   < length (matching WhereAll rows))%nat.
Proof.
  intros Hlaw. unfold findOne, matching, softDelete.
  set (live := fun e : E => negb (is_deleted e) && satisfies WhereAll e).
  set (keep := fun e : E => negb (is_deleted e) && satisfies (WhereId id) e).
  set (del := fun e : E =>
                if String.eqb (entity_id e) id then mark_deleted e else e).
  assert (Hstep : forall x, live (del x) = true -> live x = true).
  { intros x. unfold live, del, satisfies. destruct (Hlaw x) as [Hdel _].
    destruct (String.eqb (entity_id x) id); [now rewrite Hdel | trivial]. }
  assert (Hhit : forall x, keep x = true -> live x = true /\ live (del x) = false).
  { intros x. unfold keep, live, del, satisfies. destruct (Hlaw x) as [Hdel _].
    intros Hk. apply andb_true_iff in Hk as [Hd Hi].
    rewrite Hd, Hi. now rewrite Hdel. }
  assert (Hle : forall l : list E,
             (length (List.filter live (map del l))
              <= length (List.filter live l))%nat).
  { induction l as [|x l IH]; [reflexivity|].
    cbn [map List.filter]. specialize (Hstep x).
    destruct (live (del x)), (live x); cbn [length];
      first [lia | discriminate (Hstep eq_refl)]. }
  induction rows as [|x rows IH]; [discriminate|].
  cbn [map List.filter]. specialize (Hstep x). specialize (Hhit x).
  destruct (keep x) eqn:Hk.
  - intros _. destruct (Hhit eq_refl) as [-> ->]. cbn [length].
    specialize (Hle rows). lia.
  - intros Hf. specialize (IH Hf).
    destruct (live (del x)), (live x); cbn [length];
      first [lia | discriminate (Hstep eq_refl)].
Qed.

End MutationFacts.

(** X10.  Deleting through the service is a soft delete: for an id that
    [findById] finds, with a database whose delete mark sets the delete
    date and keeps the id, [delete] resolves after one lookup and one
    [softDelete]; the table keeps all its rows; the id is no longer found,
    so [findOne] and a second [delete] reject with the not-found
    condition; lookups of other ids find what they found before; and the
    total of a listing has gone down. *)
Theorem delete_hides_the_row_and_keeps_it {E : Type} `{Orm.Entity E}
    (Name id : string) (d : Async.db E) (e : E) :
  mark_deleted_deletes ->
  Orm.findOne (Orm.WhereId id) (Async.table d) = Some e ->
  let r := Service.delete Name id d in
  let not_found :=
    Async.NotFoundException (Name +:+ " " +:+ id +:+ " not found") in
  r.1 = Async.Ok tt
  /\ Async.calls r.2
     = Async.calls d ++ [Orm.FindOne (Orm.WhereId id); Orm.SoftDelete id]
  /\ length (Async.table r.2) = length (Async.table d)
  /\ (Service.findOne Name id r.2).1 = Async.Err not_found
  /\ (Service.delete Name id r.2).1 = Async.Err not_found
  /\ (forall id', id' ≠ id ->
        Orm.findOne (Orm.WhereId id') (Async.table r.2)
        = Orm.findOne (Orm.WhereId id') (Async.table d))
  /\ (forall p,
        total_of (RepositoryImpl.findAll p r.2).1
        < total_of (RepositoryImpl.findAll p d).1).
Proof.
  intros Hlaw Hfind r not_found. subst r not_found.
  rewrite (service_delete_hit Name id d e Hfind).
  cbn [fst snd Async.table Async.calls].
  assert (Hgone : Orm.findOne (Orm.WhereId id)
                    (Orm.softDelete id (Async.table d)) = None).
  { unfold Orm.findOne. rewrite matching_after_softDelete by exact Hlaw.
    now rewrite String.eqb_refl. }
  split; [reflexivity|]. split; [reflexivity|].
  split; [unfold Orm.softDelete; apply length_map|].
  split; [now rewrite service_findOne_miss|].
  split; [now rewrite service_delete_miss|].
  split.
  - intros id' Hne. unfold Orm.findOne.
    rewrite matching_after_softDelete by exact Hlaw.
    now rewrite (string_eqb_ne id id') by congruence.
  - intros p. rewrite !findAll_run. cbn [fst total_of total Async.table].
    unfold Orm.findAndCount. cbn [snd options_of Orm.fo_where].
    pose proof (live_after_softDelete id (Async.table d) e Hlaw Hfind). lia.
Qed.

Lemma delete_hides_the_row_and_keeps_it_witness :
  @mark_deleted_deletes Sample.Guest Sample.Guest_entity
  /\ Orm.findOne (Orm.WhereId "a1") (Async.table Sample.guests)
     = Some Sample.alice
  /\ (Service.findOne "Guest" "a1"
        (Service.delete "Guest" "a1" Sample.guests).2).1
     = Async.Err (Async.NotFoundException "Guest a1 not found")
  /\ length (Async.table (Service.delete "Guest" "a1" Sample.guests).2)
     = 3%nat.
Proof.
  split; [exact guests_mark_deleted_deletes|]. split; [reflexivity|].
  destruct (delete_hides_the_row_and_keeps_it "Guest" "a1" Sample.guests
              Sample.alice guests_mark_deleted_deletes eq_refl)
    as (_ & _ & Hlen & Hgone & _).
  split; [exact Hgone | exact Hlen].
Defined.

(** X11.  Updating through the service, for an id that [findById] finds
    and a database whose assignment keeps a row's id and delete date,
    resolves to the found row with the data assigned, after a lookup, the
    update and a second lookup; the adapter's own [Error] cannot come out;
    the table keeps its length and every row with another id. *)
Theorem update_returns_the_assigned_row {E : Type} `{Orm.Entity E}
    (Name id : string) (data : Orm.partial) (d : Async.db E) (e : E) :
  assign_keeps_identity ->
  Orm.findOne (Orm.WhereId id) (Async.table d) = Some e ->
  let r := Service.update Name id data d in
  r.1 = Async.Ok (Orm.assign data e)
  /\ (forall m, r.1 ≠ Async.Err (Async.Error m))
  /\ Async.calls r.2
     = Async.calls d
       ++ [Orm.FindOne (Orm.WhereId id); Orm.Update id data;
           Orm.FindOne (Orm.WhereId id)]
  /\ Async.table r.2 = Orm.update id data (Async.table d)
  /\ length (Async.table r.2) = length (Async.table d)
  /\ (forall e', e' ∈ Async.table d -> Orm.entity_id e' ≠ id ->
                 e' ∈ Async.table r.2).
Proof.
  intros Hlaw Hfind r. subst r.
  rewrite (service_update_hit Name id data d e Hfind).
  rewrite (adapter_update_hit id data _ (Orm.assign data e))
    by (cbn [Async.record Async.table];
        now apply findOne_after_update).
  cbn [fst snd Async.table Async.calls Async.record].
  split; [reflexivity|]. split; [intros m; discriminate|].
  split; [now rewrite <- app_assoc|]. split; [reflexivity|].
  split; [unfold Orm.update; apply length_map|].
  intros e' Hin Hne. now apply update_keeps_other_rows.
Qed.

Lemma update_returns_the_assigned_row_witness :
  @assign_keeps_identity Sample.Guest Sample.Guest_entity
  /\ Orm.findOne (Orm.WhereId "a1") (Async.table Sample.guests)
     = Some Sample.alice
  /\ (Service.update "Guest" "a1" Sample.rename_eve Sample.guests).1
     = Async.Ok (Sample.MkGuest "a1" 1 2 None (Some "Eve")).
Proof.
  split; [exact guests_assign_keeps_identity|]. split; [reflexivity|].
  destruct (update_returns_the_assigned_row "Guest" "a1" Sample.rename_eve
              Sample.guests Sample.alice guests_assign_keeps_identity eq_refl)
    as (Hres & _).
  exact Hres.
Defined.

(** * Properties of the generated text *)

Section OccurrenceFacts.

Import Template.

Lemma ends_with_split (x l : string) :
  ends_with x l = true -> exists a, l = a +:+ x.
Proof.
  induction l as [|c l IH]; cbn [ends_with]; intros Hx.
  - rewrite orb_false_r in Hx. apply String.eqb_eq in Hx. subst x.
    now exists "".
  - apply orb_true_iff in Hx as [Hx | Hx].
    + apply String.eqb_eq in Hx. subst x. now exists "".
    + destruct (IH Hx) as [a ->]. now exists (String c a).
Qed.

Lemma piece_eqb_eq (p q : piece) : piece_eqb p q = true -> p = q.
Proof.
  destruct p, q; simpl; try discriminate; try reflexivity.
  intros Hs. apply String.eqb_eq in Hs. now subst.
Qed.

Lemma match_rest_sound (u t : template) (v : variants) :
  match_rest u t = true ->
  exists post, render v t = render v u +:+ post.
Proof.
  revert t. induction u as [|p u IH]; intros t Hm.
  - now exists (render v t).
  - destruct t as [|q t]; [discriminate|].
    assert (Hstep : piece_eqb p q && match_rest u t = true ->
                    exists post, render v (q :: t) = render v (p :: u) +:+ post).
    { intros Hb. apply andb_true_iff in Hb as [Hpq Hu].
      apply piece_eqb_eq in Hpq. subst q.
      destruct (IH t Hu) as [post Hpost]. exists post.
      cbn [render]. now rewrite Hpost, string_app_assoc. }
    cbn [match_rest] in Hm.
    destruct p as [y| | |]; try (now apply Hstep).
    destruct u as [|p' u']; [|now apply Hstep].
    destruct q as [l| | |]; try discriminate.
    destruct (prefix_split y l Hm) as [b ->].
    exists (b +:+ render v t). cbn [render subst].
    now rewrite string_app_empty_r, string_app_assoc.
Qed.

(** What [occurs] finds in a template is in every text rendered from it. *)
Lemma occurs_sound (x : string) (u t : template) (v : variants) :
  occurs x u t = true ->
  exists pre post, render v t = pre +:+ x +:+ render v u +:+ post.
Proof.
  induction t as [|q t IH]; [discriminate|].
  assert (Hlater : occurs x u t = true ->
                   exists pre post,
                     render v (q :: t) = pre +:+ x +:+ render v u +:+ post).
  { intros Ho. destruct (IH Ho) as (pre & post & Hr).
    exists (subst v q +:+ pre), post. cbn [render].
    now rewrite Hr, string_app_assoc. }
  destruct q as [l| | |]; cbn [occurs]; try exact Hlater.
  intros Ho. apply orb_true_iff in Ho as [Hhere | Ho]; [|now apply Hlater].
  apply andb_true_iff in Hhere as [Hx Hu].
  destruct (ends_with_split x l Hx) as [a ->].
  destruct (match_rest_sound u t v Hu) as [post Hpost].
  exists a, post. cbn [render subst].
  now rewrite Hpost, !string_app_assoc.
Qed.

End OccurrenceFacts.

(** X12.  For every name the entity is bound to the table of that name
    and the controller to the route of that name, the classes carrying the
    capitalised name; the controller declares six routes, [POST] answering
    201, [GET], [GET filter/search], [GET :id], [PATCH :id] and
    [DELETE :id] answering 204, and no other. *)
Theorem entity_and_controller_carry_the_name
    (path_join : list string -> string) (toUpperCase : string -> string)
    (name : string) :
  let v := Generator.variants_of path_join toUpperCase name in
  let Name := Generator.capitalize toUpperCase name in
  (exists pre post,
     Template.render v Template.entity_text
     = pre +:+ "@Entity('" +:+ name +:+ "')
export class " +:+ Name +:+ "Entity extends BaseEntity {" +:+ post)
  /\ (exists pre post,
        Template.render v Template.controller_text
        = pre +:+ "@Controller('" +:+ name +:+ "')
export class " +:+ Name +:+ "Controller {" +:+ post)
  /\ (forall route,
        route ∈ [ "  @Post()
  @HttpCode(HttpStatus.CREATED)";
                  "  @Get()";
                  "  @Get('filter/search')";
                  "  @Get(':id')";
                  "  @Patch(':id')";
                  "  @Delete(':id')
  @HttpCode(HttpStatus.NO_CONTENT)" ] ->
        exists pre post,
          Template.render v Template.controller_text
          = pre +:+ route +:+ post)
  /\ route_decorators Template.controller_text = 6%nat.
Proof.
  intros v Name. subst Name. split; [|split; [|split]].
  - destruct (occurs_sound "@Entity('"
                [Template.V_name; Template.Lit "')
export class "; Template.V_Name;
                 Template.Lit "Entity extends BaseEntity {"]
                Template.entity_text v) as (pre & post & Hr);
      [vm_compute; reflexivity|].
    exists pre, post. rewrite Hr. cbn [Template.render Template.subst].
    subst v. cbn [Generator.variants_of Template.var_name Template.var_Name].
    now rewrite string_app_empty_r, !string_app_assoc.
  - destruct (occurs_sound "@Controller('"
                [Template.V_name; Template.Lit "')
export class "; Template.V_Name; Template.Lit "Controller {"]
                Template.controller_text v) as (pre & post & Hr);
      [vm_compute; reflexivity|].
    exists pre, post. rewrite Hr. cbn [Template.render Template.subst].
    subst v. cbn [Generator.variants_of Template.var_name Template.var_Name].
    now rewrite string_app_empty_r, !string_app_assoc.
  - intros route Hin. apply mentioned_text_is_rendered.
    repeat (apply elem_of_cons in Hin as [-> | Hin];
            [vm_compute; reflexivity|]).
    inversion Hin.
  - vm_compute. reflexivity.
Qed.

(** Unfolds a rendered pattern into the text it stands for. *)
Ltac show_occurrence H :=
  let pre := fresh "pre" in
  let post := fresh "post" in
  let Hr := fresh "Hr" in
  destruct H as (pre & post & Hr);
  exists pre, post; rewrite Hr;
  cbn [Template.render Template.subst Generator.variants_of
       Template.var_name Template.var_Name];
  now rewrite string_app_empty_r, ?string_app_assoc.

(** X13.  For every name the generated files agree on the classes they
    wire together: the port file declares the abstract class
    [<Name>Repository], the adapter file the class [<Name>RepositoryImpl]
    that extends it, the providers file binds the one to the other, the
    service takes a [<Name>Repository], the controller a [<Name>Service],
    and the module lists [<Name>Controller], [<Name>Service] and
    [<Name>Providers]. *)
Theorem generated_classes_are_wired_by_name
    (path_join : list string -> string) (toUpperCase : string -> string)
    (name : string) :
  let v := Generator.variants_of path_join toUpperCase name in
  let Name := Generator.capitalize toUpperCase name in
  (exists pre post,
     Template.render v Template.repository_text
     = pre +:+ "export abstract class " +:+ Name +:+ "Repository {" +:+ post)
  /\ (exists pre post,
        Template.render v Template.repository_impl_text
        = pre +:+ "export class " +:+ Name +:+ "RepositoryImpl extends "
          +:+ Name +:+ "Repository {" +:+ post)
  /\ (exists pre post,
        Template.render v Template.providers_text
        = pre +:+ "export const " +:+ Name +:+ "Providers = [
  {
    provide: " +:+ Name +:+ "Repository,
    useClass: " +:+ Name +:+ "RepositoryImpl,
  },
];" +:+ post)
  /\ (exists pre post,
        Template.render v Template.service_text
        = pre +:+ "export class " +:+ Name +:+ "Service {
  constructor(
    private readonly repo: " +:+ Name +:+ "Repository,
  ) {}" +:+ post)
  /\ (exists pre post,
        Template.render v Template.controller_text
        = pre +:+ "Controller {
  constructor(private readonly service: " +:+ Name +:+ "Service) {}"
          +:+ post)
  /\ (exists pre post,
        Template.render v Template.module_text
        = pre +:+ "  controllers: [" +:+ Name +:+ "Controller],
  providers: [" +:+ Name +:+ "Service, ..." +:+ Name +:+ "Providers],
  exports: [" +:+ Name +:+ "Service]," +:+ post).
Proof.
  intros v Name. subst v Name.
  split; [|split; [|split; [|split; [|split]]]].
  - show_occurrence
      (occurs_sound "export abstract class "
         [Template.V_Name; Template.Lit "Repository {"]
         Template.repository_text
         (Generator.variants_of path_join toUpperCase name)
         ltac:(vm_compute; reflexivity)).
  - show_occurrence
      (occurs_sound "export class "
         [Template.V_Name; Template.Lit "RepositoryImpl extends ";
          Template.V_Name; Template.Lit "Repository {"]
         Template.repository_impl_text
         (Generator.variants_of path_join toUpperCase name)
         ltac:(vm_compute; reflexivity)).
  - show_occurrence
      (occurs_sound "export const "
         [Template.V_Name; Template.Lit "Providers = [
  {
    provide: "; Template.V_Name; Template.Lit "Repository,
    useClass: "; Template.V_Name; Template.Lit "RepositoryImpl,
  },
];"]
         Template.providers_text
         (Generator.variants_of path_join toUpperCase name)
         ltac:(vm_compute; reflexivity)).
  - show_occurrence
      (occurs_sound "export class "
         [Template.V_Name; Template.Lit "Service {
  constructor(
    private readonly repo: "; Template.V_Name; Template.Lit "Repository,
  ) {}"]
         Template.service_text
         (Generator.variants_of path_join toUpperCase name)
         ltac:(vm_compute; reflexivity)).
  - show_occurrence
      (occurs_sound "Controller {
  constructor(private readonly service: "
         [Template.V_Name; Template.Lit "Service) {}"]
         Template.controller_text
         (Generator.variants_of path_join toUpperCase name)
         ltac:(vm_compute; reflexivity)).
  - show_occurrence
      (occurs_sound "  controllers: ["
         [Template.V_Name; Template.Lit "Controller],
  providers: ["; Template.V_Name; Template.Lit "Service, ...";
          Template.V_Name; Template.Lit "Providers],
  exports: ["; Template.V_Name; Template.Lit "Service],"]
         Template.module_text
         (Generator.variants_of path_join toUpperCase name)
         ltac:(vm_compute; reflexivity)).
Qed.

Section ImportFacts.

Import Template.



End ImportFacts.



(** * Properties of the mapper and of the pagination request *)

(** X15.  [toDomain] loses nothing: two entities with the same domain
    object are the same entity, and the four fields can be read back.
    [toEntity] keeps the id alone, and only a non-empty one: mapping an
    entity to the domain and back gives a partial entity with that id, or
    the empty object when the id is the empty string, and never a creation
    date, an update date or a delete date. *)
Theorem mapper_round_trip (entity entity' : Mapper.Entity.t)
    (domain : Mapper.Domain.t) :
  (Mapper.toDomain entity = Mapper.toDomain entity' -> entity = entity')
  /\ Mapper.Domain.id (Mapper.toDomain entity)
     = Some (Mapper.Entity.id entity)
  /\ Mapper.Domain.deletedAt (Mapper.toDomain entity)
     = Mapper.Entity.deletedAt entity
  /\ Mapper.toEntity (Mapper.toDomain entity)
     = (if String.eqb (Mapper.Entity.id entity) ""
        then Mapper.PartialEntity.empty
        else Mapper.PartialEntity.Make (Some (Mapper.Entity.id entity))
               None None None)
  /\ Mapper.PartialEntity.createdAt (Mapper.toEntity domain) = None
  /\ Mapper.PartialEntity.updatedAt (Mapper.toEntity domain) = None
  /\ Mapper.PartialEntity.deletedAt (Mapper.toEntity domain) = None
  /\ Mapper.PartialEntity.id (Mapper.toEntity domain) ≠ Some "".
Proof.
  split; [|split; [|split; [|split]]].
  - destruct entity, entity'. unfold Mapper.toDomain, Mapper.Domain.new.
    simpl. intros Heq. injection Heq as -> -> -> ->. reflexivity.
  - reflexivity.
  - reflexivity.
  - unfold Mapper.toEntity, Mapper.toDomain, Mapper.Domain.new.
    cbn [Mapper.Domain.id]. unfold Params.truthy_string.
    now destruct (String.eqb (Mapper.Entity.id entity) "").
  - unfold Mapper.toEntity.
    destruct (Mapper.Domain.id domain) as [id|];
      [unfold Params.truthy_string;
       destruct (String.eqb id "") eqn:Hid|];
      cbn; repeat split; try discriminate.
    intros Heq. injection Heq as ->. discriminate Hid.
Qed.

Lemma mapper_round_trip_witness :
  Mapper.toEntity
    (Mapper.toDomain (Mapper.Entity.Make "a1" 1 2 (Some 3)))
  = Mapper.PartialEntity.Make (Some "a1") None None None.
Proof.
  destruct (mapper_round_trip (Mapper.Entity.Make "a1" 1 2 (Some 3))
              (Mapper.Entity.Make "a1" 1 2 (Some 3))
              (Mapper.Domain.Make None None None None))
    as (_ & _ & _ & Hback & _).
  exact Hback.
Defined.

(** X16.  An instance built from a query has no undefined field: a key
    the query carries is taken, an absent key has its default.  It is
    valid exactly when the limit carried, if any, is a number at least 1
    and the offset carried, if any, a number at least 0; so the empty
    query is valid, a limit or offset that is not a number is not, and no
    sort or order string is ever turned away. *)
Theorem instance_of_query (q : PaginationDto.plain) :
  let d := PaginationDto.plainToInstance q in
  (is_Some (PaginationDto.limit d) /\ is_Some (PaginationDto.offset d)
   /\ is_Some (PaginationDto.sort d) /\ is_Some (PaginationDto.order d))
  /\ PaginationDto.limit d
     = Some (default (PaginationDto.Num 10) (PaginationDto.q_limit q))
  /\ PaginationDto.offset d
     = Some (default (PaginationDto.Num 0) (PaginationDto.q_offset q))
  /\ PaginationDto.sort d
     = Some (default "createdAt" (PaginationDto.q_sort q))
  /\ PaginationDto.order d
     = Some (default "DESC" (PaginationDto.q_order q))
  /\ (PaginationDto.validate d = true
      <-> (PaginationDto.q_limit q = None
           \/ exists x, PaginationDto.q_limit q = Some (PaginationDto.Num x)
                        /\ (1 <= x)%Q)
          /\ (PaginationDto.q_offset q = None
              \/ exists x, PaginationDto.q_offset q = Some (PaginationDto.Num x)
                           /\ (0 <= x)%Q))
  /\ (forall sort order,
        PaginationDto.validate
          (PaginationDto.plainToInstance
             (PaginationDto.Plain (PaginationDto.q_limit q)
                (PaginationDto.q_offset q) sort order))
        = PaginationDto.validate d).
Proof.
  intros d. subst d. destruct q as [l o s r].
  unfold PaginationDto.plainToInstance, PaginationDto.assign_key.
  cbn [PaginationDto.q_limit PaginationDto.q_offset PaginationDto.q_sort
       PaginationDto.q_order PaginationDto.limit PaginationDto.offset
       PaginationDto.sort PaginationDto.order PaginationDto.new].
  split; [destruct l, o, s, r; repeat split; eauto|].
  split; [now destruct l|]. split; [now destruct o|].
  split; [now destruct s|]. split; [now destruct r|].
  assert (Hs : forall v : option string,
             PaginationDto.IsOptional PaginationDto.IsString v = true)
    by (intros [v|]; reflexivity).
  split.
  - unfold PaginationDto.validate.
    cbn [PaginationDto.limit PaginationDto.offset PaginationDto.sort
         PaginationDto.order].
    rewrite !Hs, !andb_true_r, andb_true_iff.
    assert (Hkey : forall k (v : option PaginationDto.number)
                          (dflt : PaginationDto.number),
               PaginationDto.Min k dflt = true ->
               PaginationDto.IsOptional (PaginationDto.Min k)
                 match v with Some x => Some x | None => Some dflt end = true
               <-> v = None
                   \/ exists x, v = Some (PaginationDto.Num x) /\ (k <= x)%Q).
    { intros k [x|] dflt Hd; cbn [PaginationDto.IsOptional].
      - rewrite Min_spec. split.
        + intros (y & -> & Hy). right. now exists y.
        + intros [Hn | (y & Heq & Hy)]; [discriminate|].
          injection Heq as ->. now exists y.
      - split; [now left | intros _; exact Hd]. }
    rewrite (Hkey 1%Q l (PaginationDto.Num 10)) by reflexivity.
    rewrite (Hkey 0%Q o (PaginationDto.Num 0)) by reflexivity.
    reflexivity.
  - intros sort order. unfold PaginationDto.validate.
    cbn [PaginationDto.limit PaginationDto.offset PaginationDto.sort
         PaginationDto.order].
    now rewrite !Hs.
Qed.

Lemma instance_of_query_witness :
  PaginationDto.validate
    (PaginationDto.plainToInstance
       (PaginationDto.Plain (Some PaginationDto.NaN) None None
          (Some "sideways")))
  = false
  /\ PaginationDto.validate
       (PaginationDto.plainToInstance
          (PaginationDto.Plain None None None (Some "sideways")))
     = true.
Proof.
  destruct (instance_of_query
              (PaginationDto.Plain None None None (Some "sideways")))
    as (_ & _ & _ & _ & _ & Hvalid & _).
  split; [reflexivity|].
  apply Hvalid. split; now left.
Defined.

(** X17.  What the validation accepts the adapter uses as given: when an
    instance is valid and its limit and offset are the integers [n] and
    [o], then [n] is at least 1 and [o] at least 0, both listing
    operations call the ORM with [take = n] and [skip = o], and the
    envelope of the service reports limit [n], offset [o] and the ceiling
    of [total / n] as pages. *)
Theorem validated_window_is_used_as_given {E : Type} `{Orm.Entity E}
    (dto : PaginationDto.t) (n o : Z) (p : Params.t) (d : Async.db E) :
  PaginationDto.validate dto = true ->
  PaginationDto.limit dto = Some (PaginationDto.Num (inject_Z n)) ->
  PaginationDto.offset dto = Some (PaginationDto.Num (inject_Z o)) ->
  Params.limit p = Some n ->
  Params.offset p = Some o ->
  let order := (Params.string_or (Params.sort p) "createdAt",
                Params.string_or (Params.order p) "DESC") in
  1 <= n /\ 0 <= o
  /\ Async.calls (RepositoryImpl.findAll p d).2
     = Async.calls d
       ++ [Orm.FindAndCount (Orm.FindMany Orm.WhereAll n o order)]
  /\ Async.calls (RepositoryImpl.findWithFilter p d).2
     = Async.calls d
       ++ [Orm.FindAndCount
             (Orm.FindMany (RepositoryImpl.where_of (Params.search p))
                n o order)]
  /\ exists e,
       (Service.findAll p d).1 = Async.Ok e
       /\ p_limit (e_paginate e) = n
       /\ p_offset (e_paginate e) = o
       /\ is_ceiling_of_quotient (p_total (e_paginate e)) n
            (p_pages (e_paginate e)).
Proof.
  intros Hvalid Hlimit Hoffset Hn Ho order. subst order.
  unfold PaginationDto.validate in Hvalid.
  rewrite Hlimit, Hoffset in Hvalid.
  cbn [PaginationDto.IsOptional PaginationDto.Min] in Hvalid.
  apply andb_true_iff in Hvalid as [Hvalid _].
  apply andb_true_iff in Hvalid as [Hvalid _].
  apply andb_true_iff in Hvalid as [H1 H0].
  apply Qle_bool_iff in H1, H0.
  change 1%Q with (inject_Z 1) in H1. change 0%Q with (inject_Z 0) in H0.
  rewrite <- Zle_Qle in H1, H0.
  assert (Hl : Params.number_or (Params.limit p) 10 = n)
    by (rewrite Hn; apply number_or_truthy; lia).
  assert (Hs : Params.number_or (Params.offset p) 0 = o)
    by (rewrite Ho; apply number_or_zero_fallback).
  split; [exact H1|]. split; [exact H0|].
  rewrite findAll_run, findWithFilter_run.
  cbn [fst snd Async.record Async.calls]. unfold options_of.
  rewrite Hl, Hs.
  split; [reflexivity|]. split; [reflexivity|].
  eexists. split.
  - rewrite (service_findAll_run _ _ _ _ (findAll_run p d)). reflexivity.
  - unfold Service.envelope.
    cbn [e_paginate p_limit p_offset p_total p_pages limit offset total].
    rewrite Hl, Hs. split; [reflexivity|]. split; [reflexivity|].
    now apply Math_ceil_div_is_ceiling.
Qed.

Lemma validated_window_is_used_as_given_witness :
  PaginationDto.validate
    (PaginationDto.Dto (Some (PaginationDto.Num (inject_Z 1)))
       (Some (PaginationDto.Num (inject_Z 1))) None (Some "ASC")) = true
  /\ Async.calls (RepositoryImpl.findAll Sample.second_page Sample.guests).2
     = [Orm.FindAndCount
          (Orm.FindMany Orm.WhereAll 1 1 ("createdAt", "ASC"))].
Proof.
  split; [reflexivity|].
  destruct (validated_window_is_used_as_given
              (PaginationDto.Dto (Some (PaginationDto.Num (inject_Z 1)))
                 (Some (PaginationDto.Num (inject_Z 1))) None (Some "ASC"))
              1 1 Sample.second_page Sample.guests
              eq_refl eq_refl eq_refl eq_refl eq_refl)
    as (_ & _ & Hcalls & _).
  exact Hcalls.
Defined.

(** X18.  The adapter's [update] for an id that no row of the table has
    changes no row: the table after is the table before, and the promise
    rejects with the adapter's [Error] after the update and the lookup. *)
Theorem adapter_update_of_unknown_id_changes_nothing {E : Type}
    `{Orm.Entity E} (id : string) (data : Orm.partial) (d : Async.db E) :
  (forall e, e ∈ Async.table d -> Orm.entity_id e ≠ id) ->
  let r := RepositoryImpl.update id data d in
  r.1 = Async.Err (Async.Error ("Entity " +:+ id +:+ " not found"))
  /\ Async.table r.2 = Async.table d
  /\ Async.calls r.2
     = Async.calls d ++ [Orm.Update id data; Orm.FindOne (Orm.WhereId id)].
Proof.
  intros Habsent r. subst r.
  destruct (findOne_after_absent_update id data (Async.table d) Habsent)
    as [Hsame Hnone].
  rewrite adapter_update_miss by (now rewrite Hsame).
  cbn [fst snd Async.table Async.calls]. now rewrite Hsame.
Qed.

Lemma adapter_update_of_unknown_id_changes_nothing_witness :
  (forall e, e ∈ Async.table Sample.guests -> Orm.entity_id e ≠ "zz")
  /\ Async.table (RepositoryImpl.update "zz" Sample.rename_eve Sample.guests).2
     = Async.table Sample.guests.
Proof.
  assert (Habsent : forall e, e ∈ Async.table Sample.guests ->
                              Orm.entity_id e ≠ "zz").
  { intros e He. cbn [Async.table Sample.guests] in He.
    repeat (apply elem_of_cons in He as [-> | He]; [discriminate|]).
    inversion He. }
  split; [exact Habsent|].
  destruct (adapter_update_of_unknown_id_changes_nothing
              "zz" Sample.rename_eve Sample.guests Habsent)
    as (_ & Htable & _).
  exact Htable.
Defined.

Section CreateFacts.

Import Orm Async.

Context {E : Type} `{Entity E}.



End CreateFacts.



(** * The outcome of a run *)


